(** * cleanupads.py: clean-up of AWS Application Discovery Service resources

    A shallow embedding of [src/cleanupads.py].  The script is a linear
    pipeline around three remote calls (paginated list, batch delete of
    agents, start of a batch delete of configurations) with a confirmation
    prompt in between.  Everything the script does to the outside world is
    recorded as an [event]; everything the outside world answers is read
    from a [world].  Python's two ways of leaving a block early are kept
    apart: an [Exception] (caught by [except Exception]) and [SystemExit]
    (raised by [sys.exit], a [BaseException] that [except Exception] lets
    through). *)

From stdpp Require Import base option list strings gmap.
From Stdlib Require Import Ascii ZArith Lia.

Local Open Scope string_scope.
Local Open Scope list_scope.

(** ** Strings *)

(** The line feed, as in ['\n'.join(...)]. *)
Definition LF : ascii := ascii_of_nat 10.
Definition newline : string := String LF "".

(** [str.lower] on the ASCII range.  Python lowers other code points too,
    but none of them becomes one of the ASCII letters of ['cleanup'], so
    the comparison of line 75 is decided by this function. *)
Definition lower_ascii (c : ascii) : ascii :=
  let n := nat_of_ascii c in
  if Nat.leb 65 n && Nat.leb n 90 then ascii_of_nat (n + 32) else c.

Fixpoint lower (s : string) : string :=
  match s with
  | EmptyString => EmptyString
  | String c s' => String (lower_ascii c) (lower s')
  end.

(** The lines of a text: the pieces between line feeds. *)
Fixpoint lines (s : string) : list string :=
  match s with
  | EmptyString => [EmptyString]
  | String c s' =>
      if Ascii.eqb c LF then EmptyString :: lines s'
      else match lines s' with
           | l :: ls => String c l :: ls
           | [] => [String c EmptyString]
           end
  end.

Fixpoint no_LF (s : string) : bool :=
  match s with
  | EmptyString => true
  | String c s' => negb (Ascii.eqb c LF) && no_LF s'
  end.

(** ** Data *)

(** A Python [dict] with string keys and string values: a configuration
    record of the service, or one entry of a response's ['errors']. *)
Abbreviation dict := (gmap string string).

(** One clause of the [filters] argument (lines 57-61). *)
Record filter := {
  name : string;
  values : list string;
  condition : string
}.

(** One element of [deleteAgents] (line 86). *)
Record delete_agent := {
  agentId : string;
  da_force : bool
}.

(** A page of the paginator; [page.get('configurations', [])] (line 67). *)
Record page := { configurations : option (list dict) }.

(** The response of [batch_delete_agents]; [response.get('errors', [])]. *)
Record response := { errors : option (list dict) }.

(** The [argparse.Namespace] of the five [add_argument] calls (lines
    13-22): three values that are [None] unless given, two [store_true]
    flags. *)
Record Namespace := {
  args_app_name : option string;
  args_tag_key : option string;
  args_tag_value : option string;
  args_force : bool;
  args_unattended : bool
}.

(** Before any option is seen: [None] for the valued options, [False] for
    the [store_true] ones. *)
Definition defaults : Namespace :=
  {| args_app_name := None; args_tag_key := None; args_tag_value := None;
     args_force := false; args_unattended := false |}.

(** The namespace with one more option given. *)
Definition set_app_name (v : string) (ns : Namespace) : Namespace :=
  {| args_app_name := Some v; args_tag_key := args_tag_key ns;
     args_tag_value := args_tag_value ns; args_force := args_force ns;
     args_unattended := args_unattended ns |}.
Definition set_tag_key (v : string) (ns : Namespace) : Namespace :=
  {| args_app_name := args_app_name ns; args_tag_key := Some v;
     args_tag_value := args_tag_value ns; args_force := args_force ns;
     args_unattended := args_unattended ns |}.
Definition set_tag_value (v : string) (ns : Namespace) : Namespace :=
  {| args_app_name := args_app_name ns; args_tag_key := args_tag_key ns;
     args_tag_value := Some v; args_force := args_force ns;
     args_unattended := args_unattended ns |}.
Definition set_force (ns : Namespace) : Namespace :=
  {| args_app_name := args_app_name ns; args_tag_key := args_tag_key ns;
     args_tag_value := args_tag_value ns; args_force := true;
     args_unattended := args_unattended ns |}.
Definition set_unattended (ns : Namespace) : Namespace :=
  {| args_app_name := args_app_name ns; args_tag_key := args_tag_key ns;
     args_tag_value := args_tag_value ns; args_force := args_force ns;
     args_unattended := true |}.

(** What [parser.parse_args()] makes of a command line: a namespace, the
    help text (the process exits with status 0) or a usage error (status
    2). *)
Inductive parsed :=
| Parsed (args : Namespace)
| Help
| UsageError.

(** ** Events and the world *)

Inductive level := INFO | WARNING | ERROR.

(** What is handed to the logger.  The f-strings that print a Python
    object keep the object, not its [repr]. *)
Inductive message :=
| Text (s : string)
| CleaningUp (app tag val : option string) (force unattended : bool)
| FoundConfigurations (l : list dict)
| DeletedAgents (l : list string)
| DeletedConfigurations (l : list string).

Inductive event :=
| Printed (s : string)
| Log (l : level) (m : message)
| Input (prompt : string)
| NewClient
| ListConfigurations (configurationType : string) (filters : list filter)
| BatchDeleteAgents (deleteAgents : list delete_agent)
| StartBatchDeleteConfigurationTask
    (configurationType : string) (configurationIds : list string).

Abbreviation trace := (list event).

(** The answer of a remote call: a value, or an exception with its text. *)
Inductive reply (A : Type) :=
| Ok (a : A)
| Fails (e : string).
Arguments Ok {A} a.
Arguments Fails {A} e.

(** What the run meets outside the script. *)
Record world := {
  (** what [argparse] makes of the words after the program name, when
      there are any *)
  argparse : parsed;
  (** the line [input] reads; [None] at end of file *)
  stdin : option string;
  (** [boto3.Session()] and [session.client('discovery')] *)
  new_client : reply unit;
  (** the pages the paginator yields, and the error that ends the
      iteration, if any *)
  paginate : string → list filter → list page * option string;
  batch_delete_agents : list delete_agent → reply response;
  start_batch_delete_configuration_task : string → list string → reply unit
}.

(** ** Computations *)

Inductive outcome (A : Type) :=
| Returned (a : A)
| Raised (e : string)        (* an [Exception]; [e] is [str] of it *)
| SystemExit (code : Z).     (* [sys.exit(code)] *)
Arguments Returned {A} a.
Arguments Raised {A} e.
Arguments SystemExit {A} code.

(** A computation: the events it performed and how it ended. *)
Definition M (A : Type) : Type := trace * outcome A.

Global Instance M_ret : MRet M := λ A a, ([], Returned a).

Global Instance M_bind : MBind M := λ A B k m,
  match m with
  | (t, Returned a) => let '(t', o) := k a in (t ++ t', o)
  | (t, Raised e) => (t, Raised e)
  | (t, SystemExit c) => (t, SystemExit c)
  end.

Definition emit (e : event) : M unit := ([e], Returned tt).
Definition raise {A} (e : string) : M A := ([], Raised e).
Definition sys_exit {A} (code : Z) : M A := ([], SystemExit code).

(** [try: body  except Exception as e: handler e] *)
Definition try_except {A} (body : M A) (handler : string → M A) : M A :=
  match body with
  | (t, Raised e) => let '(t', o) := handler e in (t ++ t', o)
  | r => r
  end.

Definition log (l : level) (m : message) : M unit := emit (Log l m).
Definition print (s : string) : M unit := emit (Printed s).

(** [input(prompt)]; at end of file Python raises [EOFError].  An
    interrupt from the keyboard is not part of the model. *)
Definition input (w : world) (prompt : string) : M string :=
  emit (Input prompt);;
  match stdin w with
  | Some s => mret s
  | None => raise "EOF when reading a line"
  end.

(** [d[k]]; a missing key raises [KeyError(k)], whose text is the key in
    quotes. *)
Definition getitem (k : string) (d : dict) : M string :=
  match d !! k with
  | Some v => mret v
  | None => raise ("'" +:+ k +:+ "'")
  end.

Definition of_reply {A} (r : reply A) : M A :=
  match r with
  | Ok a => mret a
  | Fails e => raise e
  end.

(** The status the process ends with. *)
Definition exit_status {A} (o : outcome A) : Z :=
  match o with
  | Returned _ => 0
  | Raised _ => 1
  | SystemExit c => c
  end.

(** ** [parse_args] (lines 10-25) *)

(** [ArgumentParser(...)] takes the program name from [sys.argv[0]], which
    raises [IndexError] when [sys.argv] is empty.  With no word after the
    program name every option keeps its default.  With words, the
    namespace, the help or the usage error is [argparse]'s answer, read
    from the world; the text [argparse] writes is not recorded. *)
Definition parse_args (w : world) (sys_argv : list string) : M Namespace :=
  match sys_argv with
  | [] => raise "list index out of range"
  | [_] => mret defaults
  | _ :: _ :: _ =>
      match argparse w with
      | Parsed args => mret args
      | Help => sys_exit 0
      | UsageError => sys_exit 2
      end
  end.

(** ** [class ADS] (lines 27-109) *)

(** The attributes [__init__] stores.  The session and the client are the
    [world] the methods receive. *)
Record ADS := {
  app_name : option string;
  tag_key : option string;
  tag_value : option string;
  force : bool;
  unattended : bool
}.

(** [ADS.__init__] (lines 30-39). *)
Definition ADS_init (app tag val : option string) (f u : bool) (w : world)
  : M ADS :=
  let self := {| app_name := app; tag_key := tag; tag_value := val;
                 force := f; unattended := u |} in
  emit NewClient;;
  of_reply (new_client w);;
  log INFO (CleaningUp (app_name self) (tag_key self) (tag_value self)
              (force self) (unattended self));;
  mret self.

(** Lines 49-53. *)
Definition filter_params (self : ADS) : list (option string * string) :=
  [ (app_name self, "server.application.name");
    (tag_key self, "server.tag.key");
    (tag_value self, "server.tag.value") ].

(** One turn of the loop of lines 55-61. *)
Definition add_filter (filters : list filter) (p : option string * string)
  : list filter :=
  match fst p with
  | Some param =>
      filters ++ [ {| name := snd p; values := [param]; condition := "EQ" |} ]
  | None => filters
  end.

Definition build_filters (self : ADS) : list filter :=
  foldl add_filter [] (filter_params self).

(** One turn of the loop of lines 63-67. *)
Definition extend (acc : list dict) (p : page) : list dict :=
  acc ++ default [] (configurations p).

Definition prompt : string :=
  "Do you want to cleanup these configurations? (Type 'cleanup'): ".

(** [ADS.list_configurations] (lines 41-80).  [None] is Python's [None],
    returned by the bare [return] of line 70. *)
Definition list_configurations (self : ADS) (w : world)
  : M (option (list dict)) :=
  log INFO (Text "Listing configurations...");;
  try_except
    (let filters := build_filters self in
     emit (ListConfigurations "SERVER" filters);;
     let '(pages, err) := paginate w "SERVER" filters in
     let found := foldl extend [] pages in
     match err with Some e => raise e | None => mret tt end;;
     match found with
     | [] =>
         log WARNING (Text "No configurations found, exiting...");;
         mret None
     | _ :: _ =>
         log INFO (FoundConfigurations found);;
         (if negb (unattended self) then
            confirmation ← input w prompt;
            if negb (String.eqb (lower confirmation) "cleanup") then
              log INFO (Text "Operation cancelled by user.");;
              sys_exit 0
            else mret tt
          else mret tt);;
         mret (Some found)
     end)
    (λ e, raise ("Error listing configurations: " +:+ e)).

(** The text of line 94 for one entry of [errors]. *)
Definition error_message (error : dict) : M string :=
  a ← getitem "agentId" error;
  m ← getitem "errorMessage" error;
  mret ("Agent " +:+ a +:+ ": " +:+ m).

(** The [try] block of [delete_agents] (lines 86-96). *)
Definition delete_agents_body (self : ADS) (w : world)
    (agent_ids : list string) : M unit :=
  let agents_to_delete :=
    map (λ agent_id, {| agentId := agent_id; da_force := force self |})
        agent_ids in
  emit (BatchDeleteAgents agents_to_delete);;
  response ← of_reply (batch_delete_agents w agents_to_delete);
  match default [] (errors response) with
  | [] => log INFO (DeletedAgents agent_ids)
  | errs =>
      error_messages ← mapM error_message errs;
      raise (String.concat newline error_messages)
  end.

(** [ADS.delete_agents] (lines 82-98). *)
Definition delete_agents (self : ADS) (w : world) (agent_ids : list string)
  : M unit :=
  log INFO (Text "Deleting agents...");;
  try_except (delete_agents_body self w agent_ids)
    (λ e, raise ("Error deleting agents: " +:+ e)).

(** [ADS.delete_configurations] (lines 100-109). *)
Definition delete_configurations (self : ADS) (w : world)
    (configuration_ids : list string) : M unit :=
  log INFO (Text "Deleting configurations...");;
  try_except
    (emit (StartBatchDeleteConfigurationTask "SERVER" configuration_ids);;
     of_reply (start_batch_delete_configuration_task w "SERVER"
                 configuration_ids);;
     log INFO (DeletedConfigurations configuration_ids))
    (λ e, raise ("Error deleting configurations: " +:+ e)).

(** ** [main] (lines 111-130) *)

Definition usage_hint : string :=
  "No flags were provided. Run the tool with -h to learn about more options.".

(** [sys_argv] is [sys.argv]: the program name, then the words of the
    command line. *)
Definition main (sys_argv : list string) (w : world) : M unit :=
  try_except
    (args ← parse_args w sys_argv;
     (if Nat.eqb (length sys_argv) 1 then
        print usage_hint;; sys_exit 1
      else mret tt);;
     discovery ← ADS_init (args_app_name args) (args_tag_key args)
                   (args_tag_value args) (args_force args)
                   (args_unattended args) w;
     found ← list_configurations discovery w;
     match found with
     | Some servers =>
         agent_ids ← mapM (getitem "server.agentId") servers;
         configuration_ids ← mapM (getitem "server.configurationId") servers;
         delete_agents discovery w agent_ids;;
         delete_configurations discovery w configuration_ids
     | None => mret tt
     end)
    (λ e, log ERROR (Text ("An error occurred: " +:+ e));; sys_exit 1).

(** ** Reading a trace *)

Definition is_remote_call (e : event) : bool :=
  match e with
  | ListConfigurations _ _ | BatchDeleteAgents _
  | StartBatchDeleteConfigurationTask _ _ => true
  | _ => false
  end.

Definition is_deletion (e : event) : bool :=
  match e with
  | BatchDeleteAgents _ | StartBatchDeleteConfigurationTask _ _ => true
  | _ => false
  end.

Definition is_input (e : event) : bool :=
  match e with Input _ => true | _ => false end.

Definition is_warning (e : event) : bool :=
  match e with Log WARNING _ => true | _ => false end.

(** The remote calls of a trace, in order. *)
Definition remote_calls (t : trace) : trace := List.filter is_remote_call t.
(** The calls of [batch_delete_agents] and of
    [start_batch_delete_configuration_task]. *)
Definition deletions (t : trace) : trace := List.filter is_deletion t.
(** The lines read from the terminal. *)
Definition inputs (t : trace) : trace := List.filter is_input t.
Definition warnings (t : trace) : trace := List.filter is_warning t.

(** The object [main] builds on line 120. *)
Definition ADS_of (args : Namespace) : ADS :=
  {| app_name := args_app_name args; tag_key := args_tag_key args;
     tag_value := args_tag_value args; force := args_force args;
     unattended := args_unattended args |}.

(** The events of line 120. *)
Definition startup (args : Namespace) : trace :=
  [ NewClient;
    Log INFO (CleaningUp (args_app_name args) (args_tag_key args)
                (args_tag_value args) (args_force args)
                (args_unattended args)) ].

(** The run reaches line 121: the command line parses to [args], it is not
    empty, and the client is built. *)
Definition starts (sys_argv : list string) (w : world) (args : Namespace)
  : Prop :=
  parse_args w sys_argv = mret args ∧ length sys_argv ≠ 1 ∧
  new_client w = Ok tt.

(** [ids] are, position by position, the values the records have under
    [key]. *)
Definition fields (key : string) (recs : list dict) (ids : list string)
  : Prop :=
  Forall2 (λ (r : dict) id, r !! key = Some id) recs ids.

(** The request of line 86 for [agent_ids]. *)
Definition requests (self : ADS) (agent_ids : list string)
  : list delete_agent :=
  map (λ id, {| agentId := id; da_force := force self |}) agent_ids.

(** The filter clause the specification gives a parameter: one [EQ] clause
    on [field] when the parameter is present, none otherwise. *)
Definition clause (field : string) (param : option string) : list filter :=
  match param with
  | Some p => [ {| name := field; values := [p]; condition := "EQ" |} ]
  | None => []
  end.

Definition present (param : option string) : nat :=
  match param with Some _ => 1 | None => 0 end.

(** [line] is the text of line 94 for [error]. *)
Definition formats (error : dict) (line : string) : Prop :=
  ∃ id m, error !! "agentId" = Some id ∧ error !! "errorMessage" = Some m ∧
          line = "Agent " +:+ id +:+ ": " +:+ m.

(** ** Three readings that the script does not meet

    Each is a sentence of the description of the tool, taken to the
    letter; the theorems below settle them. *)

(** Every run whose listing returns records calls both deletions, each
    with the identifiers of those records. *)
Definition every_listing_is_deleted : Prop :=
  ∀ sys_argv w args t recs,
    starts sys_argv w args →
    list_configurations (ADS_of args) w = (t, Returned (Some recs)) →
    ∃ ids cids,
      fields "server.agentId" recs ids ∧
      fields "server.configurationId" recs cids ∧
      remote_calls (fst (main sys_argv w)) =
        [ ListConfigurations "SERVER" (build_filters (ADS_of args));
          BatchDeleteAgents (requests (ADS_of args) ids);
          StartBatchDeleteConfigurationTask "SERVER" cids ].

(** When the response lists errors, the text [delete_agents] raises has
    one line per entry, each of them the text of line 94 for its entry. *)
Definition aggregate_is_bare : Prop :=
  ∀ self w agent_ids errs,
    batch_delete_agents w (requests self agent_ids) =
      Ok {| errors := Some errs |} →
    errs ≠ [] →
    ∃ msg, snd (delete_agents self w agent_ids) = Raised msg ∧
           Forall2 formats errs (lines msg).

(** Every unattended run whose listing ends without an error reads no
    input and goes on to a deletion call. *)
Definition unattended_always_deletes : Prop :=
  ∀ sys_argv w args pages,
    starts sys_argv w args →
    args_unattended args = true →
    paginate w "SERVER" (build_filters (ADS_of args)) = (pages, None) →
    inputs (fst (main sys_argv w)) = [] ∧
    deletions (fst (main sys_argv w)) ≠ [].

(** ** Sample data *)

Definition server1 : dict :=
  <["server.configurationId" := "c1"]> {[ "server.agentId" := "a1" ]}.
Definition server2 : dict :=
  <["server.configurationId" := "c2"]> {[ "server.agentId" := "a2" ]}.
(** A record without ['server.agentId']. *)
Definition agentless : dict := {[ "server.configurationId" := "c3" ]}.

Definition busy : dict :=
  <["errorMessage" := "agent is busy"]> {[ "agentId" := "a1" ]}.
Definition gone : dict :=
  <["errorMessage" := "no such agent"]> {[ "agentId" := "a2" ]}.

(** The command line is read as [args]; the service holds [servers] in one
    page and accepts every call; the operator types [line]. *)
Definition calm (args : Namespace) (servers : list dict) (line : string)
  : world :=
  {| argparse := Parsed args;
     stdin := Some line;
     new_client := Ok tt;
     paginate := λ _ _, ([ {| configurations := Some servers |} ], None);
     batch_delete_agents := λ _, Ok {| errors := None |};
     start_batch_delete_configuration_task := λ _ _, Ok tt |}.

(** A run started as [-uf]; the listing comes in two pages with an empty
    one in between. *)
Definition paged : world :=
  {| argparse := Parsed (set_force (set_unattended defaults));
     stdin := Some "Cleanup";
     new_client := Ok tt;
     paginate := λ _ _,
       ([ {| configurations := Some [server1] |};
          {| configurations := None |};
          {| configurations := Some [server2] |} ], None);
     batch_delete_agents := λ _, Ok {| errors := None |};
     start_batch_delete_configuration_task := λ _ _, Ok tt |}.

(** The service reports [errs] for the agents it is asked to delete. *)
Definition reporting (args : Namespace) (servers errs : list dict)
  : world :=
  {| argparse := Parsed args;
     stdin := Some "cleanup";
     new_client := Ok tt;
     paginate := λ _ _, ([ {| configurations := Some servers |} ], None);
     batch_delete_agents := λ _, Ok {| errors := Some errs |};
     start_batch_delete_configuration_task := λ _ _, Ok tt |}.

(** The three remote calls fail as told: [None] lets the call succeed. *)
Definition failing (args : Namespace) (servers : list dict)
    (l a c : option string) : world :=
  {| argparse := Parsed args;
     stdin := Some "cleanup";
     new_client := Ok tt;
     paginate := λ _ _, ([ {| configurations := Some servers |} ], l);
     batch_delete_agents := λ _,
       match a with Some e => Fails e | None => Ok {| errors := Some [] |} end;
     start_batch_delete_configuration_task := λ _ _,
       match c with Some e => Fails e | None => Ok tt end |}.

Definition script : string := "cleanupads.py".

(** ** Parts of [main], named for the proofs *)

(** Lines 123-126, for the records [servers] of the listing. *)
Definition deletion (discovery : ADS) (w : world) (servers : list dict)
  : M unit :=
  agent_ids ← mapM (getitem "server.agentId") servers;
  configuration_ids ← mapM (getitem "server.configurationId") servers;
  delete_agents discovery w agent_ids;;
  delete_configurations discovery w configuration_ids.

(** Lines 128-130. *)
Definition report (e : string) : M unit :=
  log ERROR (Text ("An error occurred: " +:+ e));; sys_exit 1.

(** The first two events of each method. *)
Definition listing (self : ADS) : trace :=
  [ Log INFO (Text "Listing configurations...");
    ListConfigurations "SERVER" (build_filters self) ].
Definition deleting_agents (self : ADS) (agent_ids : list string) : trace :=
  [ Log INFO (Text "Deleting agents...");
    BatchDeleteAgents (requests self agent_ids) ].
Definition deleting_configurations (configuration_ids : list string) : trace :=
  [ Log INFO (Text "Deleting configurations...");
    StartBatchDeleteConfigurationTask "SERVER" configuration_ids ].

(** ** Vocabulary for the rest of the script *)

(** The records of the pages, page after page; a page without
    ['configurations'] gives none. *)
Definition accumulated (pages : list page) : list dict :=
  concat (map (λ p, default [] (configurations p)) pages).

(** [c] is the letter [d] in either case. *)
Definition letter_of (c d : ascii) : Prop :=
  c = d ∨ nat_of_ascii c + 32 = nat_of_ascii d.

(** [line] spells [word], letter by letter, in any mix of cases. *)
Fixpoint spelled (line word : string) : Prop :=
  match line, word with
  | EmptyString, EmptyString => True
  | String c line', String d word' => letter_of c d ∧ spelled line' word'
  | _, _ => False
  end.

(** The letters [a] to [z]. *)
Definition small (d : ascii) : Prop :=
  (97 ≤ nat_of_ascii d ≤ 122)%nat.

Fixpoint all_small (word : string) : Prop :=
  match word with
  | EmptyString => True
  | String d word' => small d ∧ all_small word'
  end.

(** A world whose terminal is closed: [input] meets the end of file. *)
Definition closed (args : Namespace) (servers : list dict) : world :=
  {| argparse := Parsed args;
     stdin := None;
     new_client := Ok tt;
     paginate := λ _ _, ([ {| configurations := Some servers |} ], None);
     batch_delete_agents := λ _, Ok {| errors := None |};
     start_batch_delete_configuration_task := λ _ _, Ok tt |}.

(** A world in which no client can be built. *)
Definition offline (args : Namespace) (e : string) : world :=
  {| argparse := Parsed args;
     stdin := Some "cleanup";
     new_client := Fails e;
     paginate := λ _ _, ([], None);
     batch_delete_agents := λ _, Ok {| errors := None |};
     start_batch_delete_configuration_task := λ _ _, Ok tt |}.

(** An entry of ['errors'] without ['errorMessage']. *)
Definition wordless : dict := {[ "agentId" := "a1" ]}.

(** ** Proof tools *)

(** Evaluation that leaves the methods folded. *)
Ltac run :=
  cbn -[list_configurations delete_agents delete_configurations deletion
        mapM String.append].

(** Discharging a premise on sample data. *)
Ltac sample :=
  lazymatch goal with
  | |- starts _ _ _ => unfold starts; repeat split; sample
  | |- fields _ _ _ => unfold fields; sample
  | |- Forall2 _ [] [] => constructor
  | |- Forall2 _ (_ :: _) (_ :: _) => constructor; sample
  | |- Forall _ [] => constructor
  | |- Forall _ (_ :: _) => constructor; sample
  | |- formats _ _ => eexists _, _; repeat split; vm_compute; reflexivity
  | |- _ ≠ _ => vm_compute; discriminate
  | |- _ => vm_compute; reflexivity
  end.

(** * Properties *)

(** ** The monad *)

Lemma bind_returned {A B} (t : trace) (a : A) (k : A → M B) :
  ((t, Returned a) ≫= k) = (t ++ fst (k a), snd (k a)).
Proof. unfold mbind, M_bind. by destruct (k a). Qed.

Lemma try_raised {A} (t : trace) (e : string) (h : string → M A) :
  try_except (t, Raised e) h = (t ++ fst (h e), snd (h e)).
Proof. unfold try_except. by destruct (h e). Qed.

(** The trace of a sequence starts with the trace of its first part. *)
Lemma bind_trace {A B} (m : M A) (k : A → M B) :
  fst (m ≫= k) =
  fst m ++ match snd m with Returned a => fst (k a) | _ => [] end.
Proof.
  destruct m as [t [a|e|c]].
  - by rewrite bind_returned.
  - simpl. by rewrite app_nil_r.
  - simpl. by rewrite app_nil_r.
Qed.

(** ** Subscripting the records *)

Lemma mapM_cons {A B} (f : A → M B) (x : A) (l : list A) :
  mapM f (x :: l) = (y ← f x; k ← mapM f l; mret (y :: k)).
Proof. reflexivity. Qed.

Lemma getitem_all (key : string) (recs : list dict) (ids : list string) :
  fields key recs ids → mapM (getitem key) recs = mret ids.
Proof.
  unfold fields. induction 1 as [|r id recs ids Hr _ IH]; [done|].
  rewrite mapM_cons, IH. unfold getitem. by rewrite Hr.
Qed.

Lemma getitem_missing (key : string) (recs : list dict) :
  Exists (λ r : dict, r !! key = None) recs →
  mapM (getitem key) recs = raise ("'" +:+ key +:+ "'").
Proof.
  induction 1 as [r recs Hr|r recs _ IH]; rewrite mapM_cons.
  - unfold getitem at 2. by rewrite Hr.
  - rewrite IH. unfold getitem. by destruct (r !! key).
Qed.

(** Subscripting either finds every value or stops at a missing key; it
    performs no event. *)
Lemma getitem_cases (key : string) (recs : list dict) :
  (∃ ids, fields key recs ids) ∨ Exists (λ r : dict, r !! key = None) recs.
Proof.
  induction recs as [|r recs [[ids IH]|IH]].
  - left. exists []. constructor.
  - destruct (r !! key) as [id|] eqn:Hr.
    + left. exists (id :: ids). by constructor.
    + right. by constructor.
  - right. by constructor 2.
Qed.

Lemma fields_length (key : string) (recs : list dict) (ids : list string) :
  fields key recs ids → length ids = length recs.
Proof. intros H. symmetry. exact (Forall2_length _ _ _ H). Qed.

(** ** [list_configurations], case by case *)

Section Listing.
Variables (self : ADS) (w : world) (pages : list page).

Lemma list_fails (e : string) :
  paginate w "SERVER" (build_filters self) = (pages, Some e) →
  list_configurations self w =
    (listing self, Raised ("Error listing configurations: " +:+ e)).
Proof. intros H. unfold list_configurations. rewrite H. reflexivity. Qed.

Hypothesis Hpages : paginate w "SERVER" (build_filters self) = (pages, None).

Lemma list_nothing :
  foldl extend [] pages = [] →
  list_configurations self w =
    (listing self ++
       [Log WARNING (Text "No configurations found, exiting...")],
     Returned None).
Proof.
  intros H. unfold list_configurations. rewrite Hpages. cbn zeta.
  rewrite H. reflexivity.
Qed.

Variable found : list dict.
Hypothesis Hfound : foldl extend [] pages = found.
Hypothesis Hsome : found ≠ [].

Lemma list_unattended :
  unattended self = true →
  list_configurations self w =
    (listing self ++ [Log INFO (FoundConfigurations found)],
     Returned (Some found)).
Proof.
  intros Hu. unfold list_configurations. rewrite Hpages. cbn zeta.
  rewrite Hfound, Hu. destruct found; [done|reflexivity].
Qed.

Hypothesis Hattended : unattended self = false.

Lemma list_eof :
  stdin w = None →
  list_configurations self w =
    (listing self ++ [Log INFO (FoundConfigurations found); Input prompt],
     Raised "Error listing configurations: EOF when reading a line").
Proof.
  intros Hin. unfold list_configurations, input. rewrite Hpages. cbn zeta.
  rewrite Hfound, Hattended, Hin. destruct found; [done|reflexivity].
Qed.

Variable line : string.
Hypothesis Hline : stdin w = Some line.

Lemma list_confirmed :
  lower line = "cleanup" →
  list_configurations self w =
    (listing self ++ [Log INFO (FoundConfigurations found); Input prompt],
     Returned (Some found)).
Proof.
  intros Hl. unfold list_configurations, input. rewrite Hpages. cbn zeta.
  rewrite Hfound, Hattended, Hline. destruct found; [done|].
  cbn. rewrite Hl. reflexivity.
Qed.

Lemma list_declined :
  lower line ≠ "cleanup" →
  list_configurations self w =
    (listing self ++
       [Log INFO (FoundConfigurations found); Input prompt;
        Log INFO (Text "Operation cancelled by user.")],
     SystemExit 0).
Proof.
  intros Hl. unfold list_configurations, input. rewrite Hpages. cbn zeta.
  rewrite Hfound, Hattended, Hline. destruct found; [done|].
  apply String.eqb_neq in Hl. cbn. rewrite Hl. reflexivity.
Qed.
End Listing.

(** Whatever the world answers, [list_configurations] issues the one
    listing call and only logs or prompts after it. *)
Lemma list_shape (self : ADS) (w : world) :
  ∃ rest, fst (list_configurations self w) = listing self ++ rest ∧
          remote_calls rest = [] ∧
          (unattended self = true → inputs rest = []).
Proof.
  unfold list_configurations, input.
  destruct (paginate w "SERVER" (build_filters self)) as [pages [e|]];
    cbn zeta.
  { eexists []. by rewrite app_nil_r. }
  destruct (foldl extend [] pages) as [|r found].
  { eexists. split; [reflexivity|done]. }
  destruct (unattended self).
  { eexists. split; [reflexivity|done]. }
  destruct (stdin w) as [line|].
  - cbn. destruct (String.eqb (lower line) "cleanup");
      (eexists; split; [reflexivity|done]).
  - eexists. split; [reflexivity|done].
Qed.

Lemma remote_calls_app (t1 t2 : trace) :
  remote_calls (t1 ++ t2) = remote_calls t1 ++ remote_calls t2.
Proof. apply List.filter_app. Qed.

Lemma deletions_app (t1 t2 : trace) :
  deletions (t1 ++ t2) = deletions t1 ++ deletions t2.
Proof. apply List.filter_app. Qed.

Lemma inputs_app (t1 t2 : trace) :
  inputs (t1 ++ t2) = inputs t1 ++ inputs t2.
Proof. apply List.filter_app. Qed.

(** A deletion is a remote call. *)
Lemma deletions_remote (t : trace) : remote_calls t = [] → deletions t = [].
Proof.
  induction t as [|e t IH]; [done|].
  destruct e; cbn; try done; auto.
Qed.

Lemma list_calls (self : ADS) (w : world) :
  remote_calls (fst (list_configurations self w)) =
    [ListConfigurations "SERVER" (build_filters self)].
Proof.
  destruct (list_shape self w) as (rest & -> & Hr & _).
  rewrite remote_calls_app, Hr. reflexivity.
Qed.

Lemma list_deletes_nothing (self : ADS) (w : world) :
  deletions (fst (list_configurations self w)) = [].
Proof.
  destruct (list_shape self w) as (rest & -> & Hr & _).
  rewrite deletions_app, (deletions_remote rest Hr). reflexivity.
Qed.

Lemma list_reads_nothing (self : ADS) (w : world) :
  unattended self = true → inputs (fst (list_configurations self w)) = [].
Proof.
  intros Hu. destruct (list_shape self w) as (rest & -> & _ & Hi).
  rewrite inputs_app, (Hi Hu). reflexivity.
Qed.

(** ** [delete_agents] *)

Lemma error_message_formats (error : dict) (line : string) :
  formats error line → error_message error = mret line.
Proof.
  intros (id & m & Hid & Hm & ->). unfold error_message, getitem.
  rewrite Hid, Hm. reflexivity.
Qed.

Lemma error_messages_format (errs : list dict) (entries : list string) :
  Forall2 formats errs entries → mapM error_message errs = mret entries.
Proof.
  induction 1 as [|error line errs entries H _ IH]; [done|].
  rewrite mapM_cons, IH, (error_message_formats _ _ H). reflexivity.
Qed.

Lemma error_message_silent (error : dict) : fst (error_message error) = [].
Proof.
  unfold error_message, getitem.
  destruct (error !! "agentId"); [|done].
  by destruct (error !! "errorMessage").
Qed.

Lemma error_messages_silent (errs : list dict) :
  fst (mapM error_message errs) = [].
Proof.
  induction errs as [|error errs IH]; [done|].
  rewrite mapM_cons, bind_trace, error_message_silent.
  destruct (snd (error_message error)); [|done..].
  rewrite bind_trace, IH. by destruct (snd (mapM error_message errs)).
Qed.

(** The text is never an exit: subscripting returns or raises. *)
Lemma error_message_outcome (error : dict) :
  (∃ line, error_message error = mret line) ∨
  (∃ e, error_message error = raise e).
Proof.
  unfold error_message, getitem.
  destruct (error !! "agentId"); [|right; by eexists].
  destruct (error !! "errorMessage"); [left|right]; by eexists.
Qed.

Lemma error_messages_outcome (errs : list dict) :
  (∃ entries, mapM error_message errs = mret entries) ∨
  (∃ e, mapM error_message errs = raise e).
Proof.
  induction errs as [|error errs IH]; [left; by exists []|].
  rewrite mapM_cons.
  destruct (error_message_outcome error) as [[line ->]|[e ->]];
    [|right; by exists e].
  destruct IH as [[entries ->]|[e ->]]; [left|right]; by eexists.
Qed.

Section DeleteAgents.
Variables (self : ADS) (w : world) (agent_ids : list string).

Lemma delete_agents_fails (e : string) :
  batch_delete_agents w (requests self agent_ids) = Fails e →
  delete_agents self w agent_ids =
    (deleting_agents self agent_ids,
     Raised ("Error deleting agents: " +:+ e)).
Proof.
  intros H. unfold delete_agents, delete_agents_body.
  fold (requests self agent_ids). rewrite H. reflexivity.
Qed.

Lemma delete_agents_clean (r : response) :
  batch_delete_agents w (requests self agent_ids) = Ok r →
  default [] (errors r) = [] →
  delete_agents self w agent_ids =
    (deleting_agents self agent_ids ++ [Log INFO (DeletedAgents agent_ids)],
     Returned tt).
Proof.
  intros H He. unfold delete_agents, delete_agents_body.
  fold (requests self agent_ids). rewrite H. cbn. rewrite He. reflexivity.
Qed.

Lemma delete_agents_reported (r : response) (errs : list dict)
    (entries : list string) :
  batch_delete_agents w (requests self agent_ids) = Ok r →
  default [] (errors r) = errs → errs ≠ [] →
  Forall2 formats errs entries →
  delete_agents self w agent_ids =
    (deleting_agents self agent_ids,
     Raised ("Error deleting agents: " +:+ String.concat newline entries)).
Proof.
  intros H He Hne Hf. unfold delete_agents, delete_agents_body.
  fold (requests self agent_ids). rewrite H. cbn -[mapM]. rewrite He.
  destruct errs as [|error errs']; [done|].
  rewrite (error_messages_format _ _ Hf). reflexivity.
Qed.

(** In every world: the log line, the one call, and the closing log line
    when the method returns. *)
Lemma delete_agents_shape :
  fst (delete_agents self w agent_ids) =
    deleting_agents self agent_ids ++
    match snd (delete_agents self w agent_ids) with
    | Returned _ => [Log INFO (DeletedAgents agent_ids)]
    | _ => []
    end
  ∧ ∀ c, snd (delete_agents self w agent_ids) ≠ SystemExit c.
Proof.
  unfold delete_agents, delete_agents_body.
  fold (requests self agent_ids).
  destruct (batch_delete_agents w (requests self agent_ids)) as [r|e];
    [|done].
  cbn -[mapM].
  destruct (default [] (errors r)) as [|error errs] eqn:He; [done|].
  destruct (error_messages_outcome (error :: errs)) as [[l ->]|[e ->]];
    done.
Qed.
End DeleteAgents.

(** ** [delete_configurations] *)

Section DeleteConfigurations.
Variables (self : ADS) (w : world) (configuration_ids : list string).

Lemma delete_configurations_fails (e : string) :
  start_batch_delete_configuration_task w "SERVER" configuration_ids =
    Fails e →
  delete_configurations self w configuration_ids =
    (deleting_configurations configuration_ids,
     Raised ("Error deleting configurations: " +:+ e)).
Proof. intros H. unfold delete_configurations. rewrite H. reflexivity. Qed.

Lemma delete_configurations_clean :
  start_batch_delete_configuration_task w "SERVER" configuration_ids =
    Ok tt →
  delete_configurations self w configuration_ids =
    (deleting_configurations configuration_ids ++
       [Log INFO (DeletedConfigurations configuration_ids)],
     Returned tt).
Proof. intros H. unfold delete_configurations. rewrite H. reflexivity. Qed.

Lemma delete_configurations_shape :
  fst (delete_configurations self w configuration_ids) =
    deleting_configurations configuration_ids ++
    match snd (delete_configurations self w configuration_ids) with
    | Returned _ => [Log INFO (DeletedConfigurations configuration_ids)]
    | _ => []
    end
  ∧ ∀ c, snd (delete_configurations self w configuration_ids)
         ≠ SystemExit c.
Proof.
  unfold delete_configurations.
  by destruct (start_batch_delete_configuration_task w "SERVER"
                 configuration_ids) as [[]|e].
Qed.
End DeleteConfigurations.

(** ** [main] *)

Section Deletion.
Variables (discovery : ADS) (w : world) (servers : list dict).

Lemma deletion_found (ids cids : list string) :
  fields "server.agentId" servers ids →
  fields "server.configurationId" servers cids →
  deletion discovery w servers =
    (delete_agents discovery w ids;; delete_configurations discovery w cids).
Proof.
  intros Ha Hc. unfold deletion.
  rewrite (getitem_all _ _ _ Ha), (getitem_all _ _ _ Hc). cbn.
  by destruct (_ ≫= _).
Qed.

Lemma deletion_no_agent :
  Exists (λ r : dict, r !! "server.agentId" = None) servers →
  deletion discovery w servers = raise "'server.agentId'".
Proof. intros H. unfold deletion. by rewrite (getitem_missing _ _ H). Qed.

Lemma deletion_no_configuration (ids : list string) :
  fields "server.agentId" servers ids →
  Exists (λ r : dict, r !! "server.configurationId" = None) servers →
  deletion discovery w servers = raise "'server.configurationId'".
Proof.
  intros Ha H. unfold deletion.
  by rewrite (getitem_all _ _ _ Ha), (getitem_missing _ _ H).
Qed.
End Deletion.

Section Main.
Variables (sys_argv : list string) (w : world) (args : Namespace).
Hypothesis Hstart : starts sys_argv w args.
Variable t : trace.

Lemma main_listed (servers : list dict) :
  list_configurations (ADS_of args) w = (t, Returned (Some servers)) →
  main sys_argv w =
    (startup args ++ t ++
       fst (try_except (deletion (ADS_of args) w servers) report),
     snd (try_except (deletion (ADS_of args) w servers) report)).
Proof.
  destruct Hstart as (Hp & Hl & Hc). apply Nat.eqb_neq in Hl.
  intros H. unfold main, ADS_init. rewrite Hp, Hc. run.
  rewrite Hl. run. fold (ADS_of args). rewrite H. run.
  fold (deletion (ADS_of args) w servers). fold report.
  destruct (deletion (ADS_of args) w servers) as [t' [[]|e|c]];
    [reflexivity| |reflexivity].
  cbn. by rewrite <- app_assoc.
Qed.

Lemma main_nothing :
  list_configurations (ADS_of args) w = (t, Returned None) →
  main sys_argv w = (startup args ++ t, Returned tt).
Proof.
  destruct Hstart as (Hp & Hl & Hc). apply Nat.eqb_neq in Hl.
  intros H. unfold main, ADS_init. rewrite Hp, Hc. run.
  rewrite Hl. run. fold (ADS_of args). rewrite H. run.
  by rewrite ?app_nil_r.
Qed.

Lemma main_list_raised (e : string) :
  list_configurations (ADS_of args) w = (t, Raised e) →
  main sys_argv w =
    (startup args ++ t ++ [Log ERROR (Text ("An error occurred: " +:+ e))],
     SystemExit 1).
Proof.
  destruct Hstart as (Hp & Hl & Hc). apply Nat.eqb_neq in Hl.
  intros H. unfold main, ADS_init. rewrite Hp, Hc. run.
  rewrite Hl. run. fold (ADS_of args). rewrite H. run.
  by rewrite ?app_nil_r.
Qed.

Lemma main_list_exit (c : Z) :
  list_configurations (ADS_of args) w = (t, SystemExit c) →
  main sys_argv w = (startup args ++ t, SystemExit c).
Proof.
  destruct Hstart as (Hp & Hl & Hc). apply Nat.eqb_neq in Hl.
  intros H. unfold main, ADS_init. rewrite Hp, Hc. run.
  rewrite Hl. run. fold (ADS_of args). rewrite H. run.
  by rewrite ?app_nil_r.
Qed.
End Main.

(** ** Lines of a text *)

Lemma lines_single (s : string) : no_LF s = true → lines s = [s].
Proof.
  induction s as [|c s IH]; [done|]. cbn [no_LF lines].
  intros H. apply andb_prop in H as [Hc Hs]. apply negb_true_iff in Hc.
  by rewrite Hc, (IH Hs).
Qed.

Lemma lines_inhabited (s : string) : ∃ l ls, lines s = l :: ls.
Proof.
  induction s as [|c s (l & ls & IH)]; cbn [lines]; [by eexists _, _|].
  rewrite IH. destruct (Ascii.eqb c LF); by eexists _, _.
Qed.

Lemma lines_prefixed (a b : string) :
  no_LF a = true →
  lines (a +:+ b) = (a +:+ hd EmptyString (lines b)) :: tail (lines b).
Proof.
  destruct (lines_inhabited b) as (l & ls & Hb). rewrite Hb. cbn [hd tail].
  induction a as [|c a IH]; cbn [no_LF]; [done|].
  intros H. apply andb_prop in H as [Hc Ha]. apply negb_true_iff in Hc.
  change (String c a +:+ b) with (String c (a +:+ b)).
  change (String c a +:+ l) with (String c (a +:+ l)).
  cbn [lines]. by rewrite Hc, (IH Ha).
Qed.

Lemma append_empty (s : string) : s +:+ EmptyString = s.
Proof.
  induction s as [|c s IH]; [done|].
  change (String c (s +:+ EmptyString) = String c s). by rewrite IH.
Qed.

Lemma lines_joined (entries : list string) :
  entries ≠ [] → Forall (λ s, no_LF s = true) entries →
  lines (String.concat newline entries) = entries.
Proof.
  induction entries as [|e entries IH]; [done|]. intros _ Hall.
  apply Forall_cons in Hall as [He Hall].
  destruct entries as [|e' entries]; [by apply lines_single|].
  change (String.concat newline (e :: e' :: entries))
    with (e +:+ newline +:+ String.concat newline (e' :: entries)).
  rewrite (lines_prefixed _ _ He).
  change (lines (newline +:+ String.concat newline (e' :: entries)))
    with (EmptyString :: lines (String.concat newline (e' :: entries))).
  rewrite IH by done. cbn [hd tail]. by rewrite append_empty.
Qed.

(** ** Lowering a line *)

Lemma lower_ascii_small (c d : ascii) :
  small d → lower_ascii c = d ↔ letter_of c d.
Proof.
  unfold small, letter_of, lower_ascii. intros Hd.
  pose proof (nat_ascii_bounded c) as Hc.
  destruct (Nat.leb 65 (nat_of_ascii c) && Nat.leb (nat_of_ascii c) 90)
    eqn:Hup.
  - apply andb_prop in Hup as [H1 H2].
    apply Nat.leb_le in H1, H2. split.
    + intros <-. right. rewrite nat_ascii_embedding; lia.
    + intros [->|H]; [lia|]. rewrite H. apply ascii_nat_embedding.
  - split; [by left|]. intros [->|H]; [done|]. exfalso.
    apply andb_false_iff in Hup as [Hup|Hup]; apply Nat.leb_gt in Hup; lia.
Qed.

Lemma lower_spelled (word : string) :
  all_small word → ∀ line, lower line = word ↔ spelled line word.
Proof.
  induction word as [|d word IH]; intros Hw [|c line]; cbn; try done.
  destruct Hw as [Hd Hw]. rewrite <- (IH Hw), <- (lower_ascii_small c d Hd).
  split; [by intros [= -> ->]|by intros [-> ->]].
Qed.

Lemma lower_length (s : string) : String.length (lower s) = String.length s.
Proof. induction s as [|c s IH]; [done|]. cbn. by rewrite IH. Qed.

Lemma cleanup_spelled (line : string) :
  lower line = "cleanup" ↔ spelled line "cleanup".
Proof. apply lower_spelled. cbv. repeat split; lia. Qed.

(** ** The claims *)

(** C4. For every combination of application name, tag key and tag value,
    absent ones included, the filters [list_configurations] builds are one
    [EQ] clause with a single value per parameter that is not [None], in
    the order application name, tag key, tag value; their number is the
    number of parameters present, and they are the filters of the listing
    call. *)
Theorem filters_per_parameter (self : ADS) (w : world) :
  build_filters self =
    clause "server.application.name" (app_name self) ++
    clause "server.tag.key" (tag_key self) ++
    clause "server.tag.value" (tag_value self)
  ∧ length (build_filters self) =
      present (app_name self) + present (tag_key self) +
      present (tag_value self)
  ∧ remote_calls (fst (list_configurations self w)) =
      [ListConfigurations "SERVER" (build_filters self)].
Proof.
  split; [|split].
  - by destruct self as [[a|] [k|] [v|] f u].
  - by destruct self as [[a|] [k|] [v|] f u].
  - apply list_calls.
Qed.


(** C7. For every sequence of agent identifiers, the empty one included,
    [delete_agents] makes exactly one remote call, [batch_delete_agents],
    whose request has one element per identifier, in order, pairing the
    identifier with the force flag of the run. *)
Theorem one_batch_call (self : ADS) (w : world) (agent_ids : list string) :
  ∃ request,
    remote_calls (fst (delete_agents self w agent_ids)) =
      [BatchDeleteAgents request]
    ∧ length request = length agent_ids
    ∧ ∀ i, request !! i =
           (λ id, {| agentId := id; da_force := force self |}) <$>
           agent_ids !! i.
Proof.
  exists (requests self agent_ids). split; [|split].
  - destruct (delete_agents_shape self w agent_ids) as [-> _].
    rewrite remote_calls_app.
    by destruct (snd (delete_agents self w agent_ids)).
  - apply length_map.
  - intros i. apply list_lookup_fmap.
Qed.

(** C5. When the pages of the listing hold no record at all,
    [list_configurations] logs a warning and returns [None], which is not
    the empty list; [main] then reads no input, makes no deletion call and
    returns, so the process ends with status 0. *)
Theorem nothing_found (sys_argv : list string) (w : world) (args : Namespace)
    (pages : list page) :
  starts sys_argv w args →
  paginate w "SERVER" (build_filters (ADS_of args)) = (pages, None) →
  foldl extend [] pages = [] →
  list_configurations (ADS_of args) w =
    (listing (ADS_of args) ++
       [Log WARNING (Text "No configurations found, exiting...")],
     Returned None)
  ∧ snd (list_configurations (ADS_of args) w) ≠ Returned (Some [])
  ∧ main sys_argv w =
      (startup args ++ listing (ADS_of args) ++
         [Log WARNING (Text "No configurations found, exiting...")],
       Returned tt)
  ∧ inputs (fst (main sys_argv w)) = []
  ∧ deletions (fst (main sys_argv w)) = []
  ∧ exit_status (snd (main sys_argv w)) = 0%Z.
Proof.
  intros Hstart Hpages Hnone.
  pose proof (list_nothing _ _ _ Hpages Hnone) as Hlist.
  rewrite (main_nothing _ _ _ Hstart _ Hlist), Hlist.
  by repeat split.
Qed.

(** ** Lines 123-130 *)

Lemma fields_complete (key : string) (recs : list dict) (ids : list string) :
  fields key recs ids → ¬ Exists (λ r : dict, r !! key = None) recs.
Proof.
  unfold fields. induction 1 as [|r id recs ids Hr _ IH]; intros HE.
  - by apply Exists_nil in HE.
  - apply Exists_cons in HE as [HE|HE]; [congruence|auto].
Qed.

Section DeletionRun.
Variables (d : ADS) (w : world) (recs : list dict) (ids cids : list string).
Hypothesis Hids : fields "server.agentId" recs ids.
Hypothesis Hcids : fields "server.configurationId" recs cids.

Lemma deletion_run :
  try_except (deletion d w recs) report =
    match delete_agents d w ids with
    | (ta, Returned _) =>
        match delete_configurations d w cids with
        | (tc, Raised e) =>
            (ta ++ tc ++ [Log ERROR (Text ("An error occurred: " +:+ e))],
             SystemExit 1)
        | (tc, o) => (ta ++ tc, o)
        end
    | (ta, Raised e) =>
        (ta ++ [Log ERROR (Text ("An error occurred: " +:+ e))],
         SystemExit 1)
    | (ta, SystemExit c) => (ta, SystemExit c)
    end.
Proof.
  rewrite (deletion_found _ _ _ _ _ Hids Hcids).
  destruct (delete_agents d w ids) as [ta [[]|e|c]]; [|done..].
  rewrite bind_returned.
  destruct (delete_configurations d w cids) as [tc [[]|e|c]]; cbn;
    [done| |done].
  by rewrite <- app_assoc.
Qed.

(** The remote calls of the deletion: the agents, then the
    configurations if the agents were deleted. *)
Lemma deletion_calls :
  remote_calls (fst (try_except (deletion d w recs) report)) =
    BatchDeleteAgents (requests d ids) ::
    match snd (delete_agents d w ids) with
    | Returned _ => [StartBatchDeleteConfigurationTask "SERVER" cids]
    | _ => []
    end.
Proof.
  rewrite deletion_run.
  destruct (delete_agents_shape d w ids) as [Ha Hna].
  destruct (delete_configurations_shape d w cids) as [Hc Hnc].
  destruct (delete_agents d w ids) as [ta [[]|e|c]]; cbn in Ha; subst ta.
  - destruct (delete_configurations d w cids) as [tc [[]|e|c]];
      cbn in Hc; subst tc; done.
  - done.
  - done.
Qed.

Lemma deletion_quiet :
  inputs (fst (try_except (deletion d w recs) report)) = [].
Proof.
  rewrite deletion_run.
  destruct (delete_agents_shape d w ids) as [Ha Hna].
  destruct (delete_configurations_shape d w cids) as [Hc Hnc].
  destruct (delete_agents d w ids) as [ta [[]|e|c]]; cbn in Ha; subst ta.
  - destruct (delete_configurations d w cids) as [tc [[]|e|c]];
      cbn in Hc; subst tc; done.
  - done.
  - done.
Qed.
End DeletionRun.

(** Whatever the records hold, the deletion reads no input. *)
Lemma deletion_reads_nothing (d : ADS) (w : world) (recs : list dict) :
  inputs (fst (try_except (deletion d w recs) report)) = [].
Proof.
  destruct (getitem_cases "server.agentId" recs) as [[ids Hids]|Hno].
  - destruct (getitem_cases "server.configurationId" recs)
      as [[cids Hcids]|Hno].
    + by apply (deletion_quiet d w recs ids cids).
    + by rewrite (deletion_no_configuration d w recs ids Hids Hno).
  - by rewrite (deletion_no_agent d w recs Hno).
Qed.

(** C2. In a run that is not unattended and whose listing found at least
    one record, exactly one line of input is read; [list_configurations]
    hands the records to [main], which goes on with the deletion of lines
    123-126, if and only if that line spells [cleanup] letter by letter in
    any mix of upper and lower case; after any other line the process exits
    with status 0 and the run holds no deletion call. *)
Theorem confirmation_gate (sys_argv : list string) (w : world)
    (args : Namespace) (pages : list page) (line : string) :
  starts sys_argv w args →
  args_unattended args = false →
  paginate w "SERVER" (build_filters (ADS_of args)) = (pages, None) →
  foldl extend [] pages ≠ [] →
  stdin w = Some line →
  let found := foldl extend [] pages in
  let asked :=
    listing (ADS_of args) ++
      [Log INFO (FoundConfigurations found); Input prompt] in
  inputs (fst (main sys_argv w)) = [Input prompt]
  ∧ (snd (list_configurations (ADS_of args) w) = Returned (Some found)
     ↔ spelled line "cleanup")
  ∧ (spelled line "cleanup" →
     main sys_argv w =
       (startup args ++ asked ++
          fst (try_except (deletion (ADS_of args) w found) report),
        snd (try_except (deletion (ADS_of args) w found) report)))
  ∧ (¬ spelled line "cleanup" →
     snd (main sys_argv w) = SystemExit 0
     ∧ deletions (fst (main sys_argv w)) = []
     ∧ exit_status (snd (main sys_argv w)) = 0%Z).
Proof.
  intros Hstart Hu Hpages Hsome Hline found asked.
  rewrite <- (cleanup_spelled line).
  destruct (decide (lower line = "cleanup")) as [Hyes|Hno].
  - pose proof (list_confirmed (ADS_of args) w pages Hpages found eq_refl
                  Hsome Hu line Hline Hyes) as Hlist.
    rewrite (main_listed _ _ _ Hstart _ _ Hlist), Hlist. cbn [fst snd].
    split; [|split; [|split]]; [|done|done|done].
    rewrite !inputs_app, deletion_reads_nothing. reflexivity.
  - pose proof (list_declined (ADS_of args) w pages Hpages found eq_refl
                  Hsome Hu line Hline Hno) as Hlist.
    rewrite (main_list_exit _ _ _ Hstart _ _ Hlist), Hlist. cbn [fst snd].
    split; [|split; [|split]]; [done| |done|done].
    split; [done|]. intros Hyes. by destruct Hno.
Qed.

(** C9, as the script has it.  In every run with the unattended flag set no
    input is read, however many records the listing returned.  When the
    listing found at least one record, [list_configurations] returns the
    records right after logging them and [main] goes on with the deletion
    of lines 123-126; when it found none, [main] returns after the warning
    and the run holds no deletion call. *)
Theorem unattended_skips_confirmation (sys_argv : list string) (w : world)
    (args : Namespace) :
  parse_args w sys_argv = mret args →
  args_unattended args = true →
  inputs (fst (main sys_argv w)) = []
  ∧ ∀ pages,
      length sys_argv ≠ 1 → new_client w = Ok tt →
      paginate w "SERVER" (build_filters (ADS_of args)) = (pages, None) →
      let found := foldl extend [] pages in
      let logged :=
        listing (ADS_of args) ++ [Log INFO (FoundConfigurations found)] in
      (found ≠ [] →
       list_configurations (ADS_of args) w = (logged, Returned (Some found))
       ∧ main sys_argv w =
           (startup args ++ logged ++
              fst (try_except (deletion (ADS_of args) w found) report),
            snd (try_except (deletion (ADS_of args) w found) report)))
      ∧ (found = [] →
         main sys_argv w =
           (startup args ++ listing (ADS_of args) ++
              [Log WARNING (Text "No configurations found, exiting...")],
            Returned tt)
         ∧ deletions (fst (main sys_argv w)) = []).
Proof.
  intros Hp Hu. split.
  - destruct (decide (length sys_argv = 1)) as [Hl|Hl].
    { apply Nat.eqb_eq in Hl. unfold main. rewrite Hp. run.
      by rewrite Hl. }
    destruct (new_client w) as [[]|e] eqn:Hc.
    2:{ apply Nat.eqb_neq in Hl. unfold main, ADS_init.
        rewrite Hp, Hc. run. by rewrite Hl. }
    assert (starts sys_argv w args) as Hstart by done.
    pose proof (list_reads_nothing (ADS_of args) w Hu) as Hquiet.
    destruct (list_configurations (ADS_of args) w)
      as [t [[recs|]|e|c]] eqn:Hlist; cbn [fst] in Hquiet.
    + rewrite (main_listed _ _ _ Hstart _ _ Hlist). cbn [fst].
      by rewrite !inputs_app, Hquiet, deletion_reads_nothing.
    + rewrite (main_nothing _ _ _ Hstart _ Hlist). cbn [fst].
      by rewrite inputs_app, Hquiet.
    + rewrite (main_list_raised _ _ _ Hstart _ _ Hlist). cbn [fst].
      by rewrite !inputs_app, Hquiet.
    + rewrite (main_list_exit _ _ _ Hstart _ _ Hlist). cbn [fst].
      by rewrite inputs_app, Hquiet.
  - intros pages Hl Hc Hpages found logged.
    assert (starts sys_argv w args) as Hstart by done.
    split.
    + intros Hsome.
      pose proof (list_unattended (ADS_of args) w pages Hpages found eq_refl
                    Hsome Hu) as Hlist.
      split; [done|]. by rewrite (main_listed _ _ _ Hstart _ _ Hlist).
    + intros Hnone.
      pose proof (list_nothing (ADS_of args) w pages Hpages Hnone) as Hlist.
      by rewrite (main_nothing _ _ _ Hstart _ Hlist).
Qed.

(** C1, as the script has it.  In a run whose listing returns N records
    that all carry both identifiers, the listing is the only listing call
    and [delete_agents] is called right after it with exactly N agent
    identifiers, the i-th being the ['server.agentId'] of the i-th record;
    when [delete_agents] returns, [delete_configurations] is called with
    exactly N configuration identifiers, the i-th being the
    ['server.configurationId'] of the i-th record, and otherwise it is not
    called. *)
Theorem deletions_follow_listing (sys_argv : list string) (w : world)
    (args : Namespace) (t : trace) (recs : list dict)
    (ids cids : list string) :
  starts sys_argv w args →
  list_configurations (ADS_of args) w = (t, Returned (Some recs)) →
  fields "server.agentId" recs ids →
  fields "server.configurationId" recs cids →
  length ids = length recs
  ∧ length cids = length recs
  ∧ length (requests (ADS_of args) ids) = length recs
  ∧ remote_calls (fst (main sys_argv w)) =
      ListConfigurations "SERVER" (build_filters (ADS_of args)) ::
      BatchDeleteAgents (requests (ADS_of args) ids) ::
      match snd (delete_agents (ADS_of args) w ids) with
      | Returned _ => [StartBatchDeleteConfigurationTask "SERVER" cids]
      | _ => []
      end.
Proof.
  intros Hstart Hlist Hids Hcids.
  pose proof (fields_length _ _ _ Hids) as Hn.
  split; [done|]. split; [by apply fields_length in Hcids|].
  split; [unfold requests; by rewrite length_map|].
  rewrite (main_listed _ _ _ Hstart _ _ Hlist). cbn [fst].
  rewrite !remote_calls_app, (deletion_calls _ _ _ _ _ Hids Hcids).
  pose proof (list_calls (ADS_of args) w) as Hcalls.
  rewrite Hlist in Hcalls. cbn [fst] in Hcalls. by rewrite Hcalls.
Qed.

(** C3, as the script has it.  When the response of [batch_delete_agents]
    lists k >= 1 errors, each with its ['agentId'] and ['errorMessage'],
    [delete_agents] raises one failure whose text is the prefix
    ['Error deleting agents: '] followed by the k entries
    ['Agent <id>: <message>'], in the order of the response, joined by line
    feeds: k lines when no entry holds a line feed, the first of them
    behind the prefix.  [main] logs that text once and exits with status 1,
    and the call of [batch_delete_agents] is the only deletion call of the
    run: [delete_configurations] is never called. *)
Theorem agent_errors_abort (sys_argv : list string) (w : world)
    (args : Namespace) (t : trace) (recs : list dict)
    (ids cids : list string) (r : response) (errs : list dict)
    (entries : list string) :
  starts sys_argv w args →
  list_configurations (ADS_of args) w = (t, Returned (Some recs)) →
  fields "server.agentId" recs ids →
  fields "server.configurationId" recs cids →
  batch_delete_agents w (requests (ADS_of args) ids) = Ok r →
  errors r = Some errs →
  errs ≠ [] →
  Forall2 formats errs entries →
  let msg := "Error deleting agents: " +:+ String.concat newline entries in
  delete_agents (ADS_of args) w ids =
    (deleting_agents (ADS_of args) ids, Raised msg)
  ∧ length entries = length errs
  ∧ (Forall (λ s, no_LF s = true) entries →
     length (lines msg) = length errs
     ∧ lines msg =
         ("Error deleting agents: " +:+ hd EmptyString entries) ::
         tail entries)
  ∧ main sys_argv w =
      (startup args ++ t ++ deleting_agents (ADS_of args) ids ++
         [Log ERROR (Text ("An error occurred: " +:+ msg))],
       SystemExit 1)
  ∧ deletions (fst (main sys_argv w)) =
      [BatchDeleteAgents (requests (ADS_of args) ids)].
Proof.
  intros Hstart Hlist Hids Hcids Hr He Hne Hf msg.
  assert (default [] (errors r) = errs) as Hd by by rewrite He.
  pose proof (delete_agents_reported _ _ _ _ _ _ Hr Hd Hne Hf) as Hda.
  pose proof (Forall2_length _ _ _ Hf) as Hlen.
  assert (entries ≠ []) as Hne' by (destruct Hf; done).
  assert (main sys_argv w =
            (startup args ++ t ++ deleting_agents (ADS_of args) ids ++
               [Log ERROR (Text ("An error occurred: " +:+ msg))],
             SystemExit 1)) as Hmain.
  { rewrite (main_listed _ _ _ Hstart _ _ Hlist).
    rewrite (deletion_run _ _ _ _ _ Hids Hcids), Hda. reflexivity. }
  split; [done|]. split; [done|]. split; [|split; [done|]].
  - intros Hall. unfold msg.
    rewrite lines_prefixed, (lines_joined _ Hne' Hall) by done.
    split; [|done]. destruct entries; [done|]. cbn in *. lia.
  - rewrite Hmain. cbn [fst]. rewrite !deletions_app.
    pose proof (list_deletes_nothing (ADS_of args) w) as Hquiet.
    rewrite Hlist in Hquiet. cbn [fst] in Hquiet. by rewrite Hquiet.
Qed.

(** C8. A remote call that fails inside [list_configurations],
    [delete_agents] or [delete_configurations] is raised again behind the
    prefix ['Error listing configurations: '], ['Error deleting agents: ']
    or ['Error deleting configurations: '].  [main] catches it, logs it
    once and exits with status 1: that log line is the last event of the
    run, so the failed call is not tried again and no later step runs. *)
Theorem remote_errors_are_fatal (sys_argv : list string) (w : world)
    (args : Namespace) :
  starts sys_argv w args →
  let d := ADS_of args in
  let logged e := Log ERROR (Text ("An error occurred: " +:+ e)) in
  (∀ pages e,
     paginate w "SERVER" (build_filters d) = (pages, Some e) →
     let msg := "Error listing configurations: " +:+ e in
     list_configurations d w = (listing d, Raised msg)
     ∧ main sys_argv w =
         (startup args ++ listing d ++ [logged msg], SystemExit 1)
     ∧ exit_status (snd (main sys_argv w)) = 1%Z)
  ∧ (∀ t recs ids cids e,
       list_configurations d w = (t, Returned (Some recs)) →
       fields "server.agentId" recs ids →
       fields "server.configurationId" recs cids →
       batch_delete_agents w (requests d ids) = Fails e →
       let msg := "Error deleting agents: " +:+ e in
       delete_agents d w ids = (deleting_agents d ids, Raised msg)
       ∧ main sys_argv w =
           (startup args ++ t ++ deleting_agents d ids ++ [logged msg],
            SystemExit 1)
       ∧ exit_status (snd (main sys_argv w)) = 1%Z)
  ∧ (∀ t recs ids cids ta e,
       list_configurations d w = (t, Returned (Some recs)) →
       fields "server.agentId" recs ids →
       fields "server.configurationId" recs cids →
       delete_agents d w ids = (ta, Returned tt) →
       start_batch_delete_configuration_task w "SERVER" cids = Fails e →
       let msg := "Error deleting configurations: " +:+ e in
       delete_configurations d w cids =
         (deleting_configurations cids, Raised msg)
       ∧ main sys_argv w =
           (startup args ++ t ++ ta ++ deleting_configurations cids ++
              [logged msg],
            SystemExit 1)
       ∧ exit_status (snd (main sys_argv w)) = 1%Z).
Proof.
  intros Hstart d logged. subst d. split; [|split].
  - intros pages e Hpages msg.
    pose proof (list_fails _ w pages e Hpages) as Hlist.
    rewrite (main_list_raised _ _ _ Hstart _ _ Hlist). by repeat split.
  - intros t recs ids cids e Hlist Hids Hcids Hfail msg.
    pose proof (delete_agents_fails _ w ids e Hfail) as Hda.
    rewrite (main_listed _ _ _ Hstart _ _ Hlist).
    rewrite (deletion_run _ _ _ _ _ Hids Hcids), Hda. by repeat split.
  - intros t recs ids cids ta e Hlist Hids Hcids Hda Hfail msg.
    pose proof (delete_configurations_fails (ADS_of args) w cids e Hfail) as Hdc.
    rewrite (main_listed _ _ _ Hstart _ _ Hlist).
    rewrite (deletion_run _ _ _ _ _ Hids Hcids), Hda, Hdc.
    by repeat split.
Qed.

(** C10. When some record that [list_configurations] returned lacks
    ['server.agentId'] or ['server.configurationId'], the subscript of
    lines 123-124 raises for one of the two keys before [delete_agents] is
    called; [main] catches it, logs it and exits with status 1, and the run
    holds no deletion call. *)
Theorem missing_identifier_aborts (sys_argv : list string) (w : world)
    (args : Namespace) (t : trace) (recs : list dict) :
  starts sys_argv w args →
  list_configurations (ADS_of args) w = (t, Returned (Some recs)) →
  Exists (λ r : dict, r !! "server.agentId" = None ∨
                      r !! "server.configurationId" = None) recs →
  ∃ key,
    (key = "server.agentId" ∨ key = "server.configurationId")
    ∧ deletion (ADS_of args) w recs = raise ("'" +:+ key +:+ "'")
    ∧ main sys_argv w =
        (startup args ++ t ++
           [Log ERROR (Text ("An error occurred: " +:+ "'" +:+ key +:+ "'"))],
         SystemExit 1)
    ∧ deletions (fst (main sys_argv w)) = []
    ∧ exit_status (snd (main sys_argv w)) = 1%Z.
Proof.
  intros Hstart Hlist Hmiss.
  pose proof (list_deletes_nothing (ADS_of args) w) as Hquiet.
  rewrite Hlist in Hquiet. cbn [fst] in Hquiet.
  rewrite (main_listed _ _ _ Hstart _ _ Hlist). cbn [fst snd].
  destruct (getitem_cases "server.agentId" recs) as [[ids Hids]|Hno].
  - destruct (getitem_cases "server.configurationId" recs)
      as [[cids Hcids]|Hno].
    + exfalso. apply Exists_exists in Hmiss as (r & Hin & [Hr|Hr]).
      * apply (fields_complete _ _ _ Hids), Exists_exists. eauto.
      * apply (fields_complete _ _ _ Hcids), Exists_exists. eauto.
    + exists "server.configurationId".
      rewrite (deletion_no_configuration _ w _ _ Hids Hno).
      rewrite !deletions_app, Hquiet. by repeat split; try right.
  - exists "server.agentId".
    rewrite (deletion_no_agent _ w _ Hno).
    rewrite !deletions_app, Hquiet. by repeat split; try left.
Qed.

(** ** The readings the script does not meet *)

(** C1 to the letter fails: one record is listed, the service reports an
    error for its agent, and [delete_configurations] is never called. *)
Lemma listing_without_deletion : ¬ every_listing_is_deleted.
Proof.
  intros H.
  edestruct (H [script; "-u"] (reporting (set_unattended defaults) [server1] [busy]))
    as (ids & cids & _ & _ & Hcalls); [sample|sample|].
  vm_compute in Hcalls. discriminate Hcalls.
Qed.

(** C3 to the letter fails: for the single error [busy] the text raised is
    ['Error deleting agents: Agent a1: agent is busy'], whose only line is
    not ['Agent a1: agent is busy']. *)
Lemma aggregate_has_prefix : ¬ aggregate_is_bare.
Proof.
  intros H.
  destruct (H (ADS_of defaults) (reporting defaults [server1] [busy]) ["a1"] [busy])
    as (msg & Hmsg & Hlines); [sample|sample|].
  vm_compute in Hmsg. injection Hmsg as <-.
  vm_compute in Hlines.
  apply Forall2_cons_1 in Hlines as [(id & m & _ & _ & Hline) _].
  discriminate Hline.
Qed.

(** C9 to the letter fails: an unattended run whose listing is empty makes
    no deletion call. *)
Lemma unattended_without_deletion : ¬ unattended_always_deletes.
Proof.
  intros H.
  edestruct (H [script; "-u"] (calm (set_unattended defaults) [] "")) as [_ Hdel];
    [sample|sample|sample|].
  by apply Hdel.
Qed.

(** ** The theorems on sample runs *)

(** [nothing_found] on an unattended run against an empty service. *)
Lemma nothing_found_sample :
  snd (list_configurations (ADS_of (set_unattended defaults)) (calm (set_unattended defaults) [] ""))
    ≠ Returned (Some [])
  ∧ deletions (fst (main [script; "-u"] (calm (set_unattended defaults) [] ""))) = []
  ∧ exit_status (snd (main [script; "-u"] (calm (set_unattended defaults) [] ""))) = 0%Z.
Proof.
  destruct (nothing_found [script; "-u"] (calm (set_unattended defaults) [] "")
              (set_unattended defaults)
              [ {| configurations := Some [] |} ])
    as (_ & Hnone & _ & _ & Hdel & Hexit); [sample|sample|sample|].
  exact (conj Hnone (conj Hdel Hexit)).
Defined.

(** [confirmation_gate] on two runs started as [--app-name=web01]: the
    operator types [CleanUp] and the record is deleted; the operator types
    [no] and nothing is. *)
Lemma confirmation_gate_sample :
  (snd (list_configurations (ADS_of (set_app_name "web01" defaults))
          (calm (set_app_name "web01" defaults) [server1] "CleanUp")) =
     Returned (Some [server1])
   ∧ deletions
       (fst (main [script; "--app-name=web01"]
               (calm (set_app_name "web01" defaults) [server1] "CleanUp"))) =
       [ BatchDeleteAgents [ {| agentId := "a1"; da_force := false |} ];
         StartBatchDeleteConfigurationTask "SERVER" ["c1"] ])
  ∧ inputs
      (fst (main [script; "--app-name=web01"]
              (calm (set_app_name "web01" defaults) [server1] "no"))) =
      [Input prompt]
  ∧ snd (main [script; "--app-name=web01"]
           (calm (set_app_name "web01" defaults) [server1] "no")) =
      SystemExit 0
  ∧ deletions
      (fst (main [script; "--app-name=web01"]
              (calm (set_app_name "web01" defaults) [server1] "no"))) = [].
Proof.
  split.
  - destruct (confirmation_gate [script; "--app-name=web01"]
                (calm (set_app_name "web01" defaults) [server1] "CleanUp")
                (set_app_name "web01" defaults)
                [ {| configurations := Some [server1] |} ] "CleanUp")
      as (_ & [_ Hyes] & Hmain & _); [sample|sample|sample|sample|sample|].
    assert (spelled "CleanUp" "cleanup") as Hspelled.
    { cbv. repeat split; (by left) || (by right). }
    split; [exact (Hyes Hspelled)|].
    rewrite (Hmain Hspelled). vm_compute. reflexivity.
  - destruct (confirmation_gate [script; "--app-name=web01"]
                (calm (set_app_name "web01" defaults) [server1] "no")
                (set_app_name "web01" defaults)
                [ {| configurations := Some [server1] |} ] "no")
      as (Hin & _ & _ & Hno); [sample|sample|sample|sample|sample|].
    destruct Hno as (Hexit & Hdel & _);
      [cbv; intros [[H|H] _]; discriminate H|].
    exact (conj Hin (conj Hexit Hdel)).
Defined.

(** [unattended_skips_confirmation] on two runs started as [-uf]: the
    listing in three pages, and an empty service. *)
Lemma unattended_sample :
  inputs (fst (main [script; "-uf"] paged)) = []
  ∧ snd (list_configurations (ADS_of (set_force (set_unattended defaults)))
           paged) =
      Returned (Some [server1; server2])
  ∧ deletions
      (fst (main [script; "-uf"]
              (calm (set_force (set_unattended defaults)) [] ""))) = [].
Proof.
  destruct (unattended_skips_confirmation [script; "-uf"] paged
              (set_force (set_unattended defaults))) as [Hin Hgo];
    [sample|sample|].
  destruct (Hgo [ {| configurations := Some [server1] |};
                  {| configurations := None |};
                  {| configurations := Some [server2] |} ])
    as [Hsome _]; [sample|sample|sample|].
  destruct Hsome as [Hlist _]; [sample|].
  destruct (unattended_skips_confirmation [script; "-uf"]
              (calm (set_force (set_unattended defaults)) [] "")
              (set_force (set_unattended defaults))) as [_ Hgo'];
    [sample|sample|].
  destruct (Hgo' [ {| configurations := Some [] |} ])
    as [_ Hnone]; [sample|sample|sample|].
  destruct Hnone as [_ Hdel]; [sample|].
  split; [exact Hin|]. split; [by rewrite Hlist|exact Hdel].
Defined.

(** [deletions_follow_listing] on the scenario of the description,
    started as [-aweb01 -u]: two records, agents [a1], [a2], configurations
    [c1], [c2]. *)
Lemma deletions_follow_listing_sample :
  remote_calls
    (fst (main [script; "-aweb01"; "-u"] (calm (set_unattended (set_app_name "web01" defaults)) [server1; server2] ""))) =
    [ ListConfigurations "SERVER"
        [ {| name := "server.application.name"; values := ["web01"];
             condition := "EQ" |} ];
      BatchDeleteAgents
        [ {| agentId := "a1"; da_force := false |};
          {| agentId := "a2"; da_force := false |} ];
      StartBatchDeleteConfigurationTask "SERVER" ["c1"; "c2"] ].
Proof.
  edestruct (deletions_follow_listing [script; "-aweb01"; "-u"]
               (calm (set_unattended (set_app_name "web01" defaults)) [server1; server2] "")
               (set_unattended (set_app_name "web01" defaults))
               (fst (list_configurations
                       (ADS_of (set_unattended (set_app_name "web01" defaults)))
                       (calm (set_unattended (set_app_name "web01" defaults)) [server1; server2] "")))
               [server1; server2] ["a1"; "a2"] ["c1"; "c2"])
    as (_ & _ & _ & Hcalls); [sample|sample|sample|sample|].
  exact Hcalls.
Defined.

(** [agent_errors_abort] with two errors in the response. *)
Lemma agent_errors_abort_sample :
  snd (delete_agents (ADS_of (set_unattended defaults))
         (reporting (set_unattended defaults) [server1; server2] [busy; gone]) ["a1"; "a2"]) =
    Raised ("Error deleting agents: Agent a1: agent is busy" +:+ newline +:+
            "Agent a2: no such agent")
  ∧ lines ("Error deleting agents: Agent a1: agent is busy" +:+ newline +:+
           "Agent a2: no such agent") =
      ["Error deleting agents: Agent a1: agent is busy";
       "Agent a2: no such agent"]
  ∧ deletions
      (fst (main [script; "-u"] (reporting (set_unattended defaults) [server1; server2] [busy; gone])))
    = [ BatchDeleteAgents
          [ {| agentId := "a1"; da_force := false |};
            {| agentId := "a2"; da_force := false |} ] ].
Proof.
  edestruct (agent_errors_abort [script; "-u"]
               (reporting (set_unattended defaults) [server1; server2] [busy; gone])
               (set_unattended defaults)
               (fst (list_configurations (ADS_of (set_unattended defaults))
                       (reporting (set_unattended defaults) [server1; server2] [busy; gone])))
               [server1; server2]
               ["a1"; "a2"] ["c1"; "c2"] {| errors := Some [busy; gone] |}
               [busy; gone]
               ["Agent a1: agent is busy"; "Agent a2: no such agent"])
    as (Hda & _ & Hlines & _ & Hdel);
    [sample|sample|sample|sample|sample|sample|sample|sample|].
  destruct Hlines as [_ Hlines]; [sample|].
  split; [by rewrite Hda|]. split; [exact Hlines|exact Hdel].
Defined.

(** [remote_errors_are_fatal], once for each of the three calls. *)
Lemma remote_errors_sample :
  main [script; "-u"] (failing (set_unattended defaults) [server1] (Some "timed out") None None) =
    (startup (set_unattended defaults) ++
       listing (ADS_of (set_unattended defaults)) ++
       [Log ERROR
          (Text "An error occurred: Error listing configurations: timed out")],
     SystemExit 1)
  ∧ snd (main [script; "-u"] (failing (set_unattended defaults) [server1] None (Some "denied") None)) =
      SystemExit 1
  ∧ snd (main [script; "-u"] (failing (set_unattended defaults) [server1] None None (Some "throttled")))
    = SystemExit 1.
Proof.
  split; [|split].
  - destruct (remote_errors_are_fatal [script; "-u"]
                (failing (set_unattended defaults) [server1] (Some "timed out") None None)
                (set_unattended defaults)) as (Hl & _ & _); [sample|].
    edestruct Hl as (_ & Hmain & _); [sample|]. exact Hmain.
  - destruct (remote_errors_are_fatal [script; "-u"]
                (failing (set_unattended defaults) [server1] None (Some "denied") None)
                (set_unattended defaults)) as (_ & Ha & _); [sample|].
    edestruct (Ha (fst (list_configurations
                          (ADS_of (set_unattended defaults))
                          (failing (set_unattended defaults) [server1] None (Some "denied") None)))
                 [server1] ["a1"] ["c1"]) as (_ & Hmain & _);
      [sample|sample|sample|sample|].
    rewrite Hmain. reflexivity.
  - destruct (remote_errors_are_fatal [script; "-u"]
                (failing (set_unattended defaults) [server1] None None (Some "throttled"))
                (set_unattended defaults)) as (_ & _ & Hc); [sample|].
    edestruct (Hc (fst (list_configurations
                          (ADS_of (set_unattended defaults))
                          (failing (set_unattended defaults) [server1] None None (Some "throttled"))))
                 [server1] ["a1"] ["c1"]) as (_ & Hmain & _);
      [sample|sample|sample|sample|sample|].
    rewrite Hmain. reflexivity.
Defined.

(** [missing_identifier_aborts] on a listing whose second record has no
    ['server.agentId']. *)
Lemma missing_identifier_sample :
  deletions (fst (main [script; "-u"] (calm (set_unattended defaults) [server1; agentless] ""))) = []
  ∧ exit_status (snd (main [script; "-u"] (calm (set_unattended defaults) [server1; agentless] ""))) =
      1%Z.
Proof.
  edestruct (missing_identifier_aborts [script; "-u"]
               (calm (set_unattended defaults) [server1; agentless] "") (set_unattended defaults)
               (fst (list_configurations (ADS_of (set_unattended defaults))
                       (calm (set_unattended defaults) [server1; agentless] "")))
               [server1; agentless])
    as (key & _ & _ & _ & Hdel & Hexit); [sample|sample| |].
  - apply Exists_cons_tl, Exists_cons_hd. left. vm_compute. reflexivity.
  - exact (conj Hdel Hexit).
Defined.

(** * The rest of the script *)

(** ** The loop over the pages (lines 63-67) *)

Lemma extend_from (acc : list dict) (pages : list page) :
  foldl extend acc pages = acc ++ accumulated pages.
Proof.
  revert acc. induction pages as [|p pages IH]; intros acc; cbn.
  - by rewrite app_nil_r.
  - rewrite IH. unfold extend. by rewrite <- app_assoc.
Qed.

(** The loop of lines 63-67 gathers the records of all pages in the order
    of the pages, skipping the pages without ['configurations']: listing
    pages one after another gathers what each part gathers, and the number
    of records is the sum over the pages. *)
Theorem pages_accumulate (pages more : list page) :
  foldl extend [] pages = accumulated pages
  ∧ foldl extend [] (pages ++ more) =
      foldl extend [] pages ++ foldl extend [] more
  ∧ length (foldl extend [] pages) =
      sum_list (map (λ p, length (default [] (configurations p))) pages).
Proof.
  rewrite !extend_from. cbn [app]. split; [done|]. split.
  - unfold accumulated. by rewrite map_app, concat_app.
  - unfold accumulated. induction pages as [|p pages IH]; [done|].
    cbn. by rewrite length_app, IH.
Qed.

(** ** What [list_configurations] can end with *)

Lemma list_inversion (self : ADS) (w : world) :
  match snd (list_configurations self w) with
  | Returned (Some recs) =>
      recs ≠ []
      ∧ (∃ pages, paginate w "SERVER" (build_filters self) = (pages, None)
                  ∧ recs = foldl extend [] pages)
      ∧ (unattended self = true
         ∨ ∃ line, stdin w = Some line ∧ lower line = "cleanup")
  | Returned None =>
      ∃ pages, paginate w "SERVER" (build_filters self) = (pages, None)
               ∧ foldl extend [] pages = []
  | SystemExit c =>
      c = 0%Z ∧ unattended self = false
      ∧ ∃ line, stdin w = Some line ∧ lower line ≠ "cleanup"
  | Raised e => ∃ e', e = "Error listing configurations: " +:+ e'
  end.
Proof.
  unfold list_configurations, input.
  destruct (paginate w "SERVER" (build_filters self)) as [pages [e|]];
    cbn zeta.
  { by exists e. }
  destruct (foldl extend [] pages) as [|r found] eqn:Hfound.
  { by exists pages. }
  destruct (unattended self) eqn:Hu.
  { cbn. split; [done|]. split; [|by left]. by exists pages. }
  destruct (stdin w) as [line|] eqn:Hline; [|by eexists].
  cbn. destruct (String.eqb (lower line) "cleanup") eqn:Heq; cbn.
  - apply String.eqb_eq in Heq. split; [done|]. split; [by exists pages|].
    right. by exists line.
  - apply String.eqb_neq in Heq. split; [done|]. split; [done|].
    by exists line.
Qed.

(** What [list_configurations] returns is never an empty list: a returned
    list is the non-empty accumulation of the pages of a listing that ended
    without an error, and [None] is returned exactly when such a listing
    accumulated nothing. *)
Theorem listing_never_empty (self : ADS) (w : world) :
  (∀ recs, snd (list_configurations self w) = Returned (Some recs) →
     recs ≠ []
     ∧ ∃ pages, paginate w "SERVER" (build_filters self) = (pages, None)
                ∧ recs = accumulated pages)
  ∧ (snd (list_configurations self w) = Returned None ↔
     ∃ pages, paginate w "SERVER" (build_filters self) = (pages, None)
              ∧ accumulated pages = []).
Proof.
  pose proof (list_inversion self w) as Hinv. split.
  - intros recs Hrecs. rewrite Hrecs in Hinv.
    destruct Hinv as (Hne & (pages & Hp & ->) & _). split; [done|].
    exists pages. by rewrite extend_from.
  - split.
    + intros Hnone. rewrite Hnone in Hinv. destruct Hinv as (pages & Hp & He).
      exists pages. by rewrite extend_from in He.
    + intros (pages & Hp & He).
      rewrite (list_nothing self w pages Hp); [done|].
      by rewrite extend_from.
Qed.

(** [list_configurations] ends the process only at the prompt: if it exits,
    the status is 0, the run is not unattended, and a line was read that,
    lowered, is not ['cleanup']. *)
Theorem exit_only_on_decline (self : ADS) (w : world) (c : Z) :
  snd (list_configurations self w) = SystemExit c →
  c = 0%Z ∧ unattended self = false
  ∧ ∃ line, stdin w = Some line ∧ lower line ≠ "cleanup".
Proof.
  intros H. pose proof (list_inversion self w) as Hinv.
  by rewrite H in Hinv.
Qed.

(** ** The word of the confirmation (line 75) *)

(** The comparison of line 75 accepts exactly the seven-letter spellings of
    [cleanup] in any mix of upper and lower case.  The line is not trimmed:
    a line of any other length, one with a blank around the word included,
    is refused. *)
Theorem cleanup_in_any_case (line : string) :
  (lower line = "cleanup" ↔ spelled line "cleanup")
  ∧ (String.length line ≠ 7 → lower line ≠ "cleanup").
Proof.
  split.
  - apply cleanup_spelled.
  - intros Hlen Heq. apply Hlen. by rewrite <- lower_length, Heq.
Qed.

(** ** The prompt at the end of the input (line 74) *)

(** When the terminal is closed while the script asks for confirmation, the
    [EOFError] of [input] is raised again as a listing error; [main] logs
    it and exits with status 1, and no deletion call is made. *)
Theorem end_of_input_aborts (sys_argv : list string) (w : world)
    (args : Namespace) (pages : list page) :
  starts sys_argv w args →
  args_unattended args = false →
  paginate w "SERVER" (build_filters (ADS_of args)) = (pages, None) →
  foldl extend [] pages ≠ [] →
  stdin w = None →
  main sys_argv w =
    (startup args ++ listing (ADS_of args) ++
       [ Log INFO (FoundConfigurations (foldl extend [] pages));
         Input prompt;
         Log ERROR
           (Text ("An error occurred: Error listing configurations: " +:+
                  "EOF when reading a line")) ],
     SystemExit 1)
  ∧ deletions (fst (main sys_argv w)) = [].
Proof.
  intros Hstart Hu Hpages Hsome Hin.
  pose proof (list_eof (ADS_of args) w pages Hpages _ eq_refl Hsome Hu Hin)
    as Hlist.
  rewrite (main_list_raised _ _ _ Hstart _ _ Hlist). split.
  - by rewrite <- app_assoc.
  - cbn [fst]. by rewrite !deletions_app.
Qed.

(** ** [ADS.__init__] (lines 30-39) *)

(** When the session or the client cannot be built, [main] logs the error
    and exits with status 1: the run makes no remote call, reads no input
    and does not log its parameters. *)
Theorem no_client_no_call (sys_argv : list string) (w : world)
    (args : Namespace) (e : string) :
  parse_args w sys_argv = mret args →
  length sys_argv ≠ 1 →
  new_client w = Fails e →
  main sys_argv w =
    ([NewClient; Log ERROR (Text ("An error occurred: " +:+ e))],
     SystemExit 1)
  ∧ remote_calls (fst (main sys_argv w)) = []
  ∧ inputs (fst (main sys_argv w)) = [].
Proof.
  intros Hp Hl Hc. apply Nat.eqb_neq in Hl.
  assert (main sys_argv w =
            ([NewClient; Log ERROR (Text ("An error occurred: " +:+ e))],
             SystemExit 1)) as ->; [|done].
  unfold main, ADS_init. rewrite Hp, Hc. run. by rewrite Hl.
Qed.

(** ** [delete_configurations] (lines 100-109) *)

(** For every list of identifiers, the empty one included,
    [delete_configurations] makes exactly one remote call, the start of a
    batch deletion of type [SERVER] with the identifiers as given; it
    returns exactly when that call succeeds and never ends the process. *)
Theorem one_task_call (self : ADS) (w : world)
    (configuration_ids : list string) :
  remote_calls (fst (delete_configurations self w configuration_ids)) =
    [StartBatchDeleteConfigurationTask "SERVER" configuration_ids]
  ∧ (snd (delete_configurations self w configuration_ids) = Returned tt ↔
     start_batch_delete_configuration_task w "SERVER" configuration_ids =
       Ok tt)
  ∧ ∀ c, snd (delete_configurations self w configuration_ids)
         ≠ SystemExit c.
Proof.
  destruct (delete_configurations_shape self w configuration_ids)
    as [Hshape Hexit].
  split; [|split; [|done]].
  - rewrite Hshape, remote_calls_app.
    by destruct (snd (delete_configurations self w configuration_ids)).
  - unfold delete_configurations.
    by destruct (start_batch_delete_configuration_task w "SERVER"
                   configuration_ids) as [[]|e].
Qed.

(** ** [delete_agents] (lines 82-98) *)

(** [delete_agents] returns exactly when the call succeeds and the response
    lists no error: a response without ['errors'] and one with an empty
    ['errors'] both count as success.  It never ends the process. *)
Theorem agents_deleted_iff (self : ADS) (w : world)
    (agent_ids : list string) :
  (snd (delete_agents self w agent_ids) = Returned tt ↔
   ∃ r, batch_delete_agents w (requests self agent_ids) = Ok r
        ∧ (errors r = None ∨ errors r = Some []))
  ∧ ∀ c, snd (delete_agents self w agent_ids) ≠ SystemExit c.
Proof.
  split; [|apply delete_agents_shape]. split.
  - unfold delete_agents, delete_agents_body.
    fold (requests self agent_ids).
    destruct (batch_delete_agents w (requests self agent_ids)) as [r|e];
      [|done].
    cbn -[mapM]. destruct (errors r) as [[|error errs]|] eqn:He; cbn -[mapM].
    + intros _. exists r. split; [done|by right].
    + destruct (error_messages_outcome (error :: errs))
        as [[l ->]|[e ->]]; done.
    + intros _. exists r. split; [done|by left].
  - intros (r & Hr & He).
    rewrite (delete_agents_clean self w agent_ids r Hr); [done|].
    by destruct He as [->| ->].
Qed.

Lemma error_messages_missing (key : string) (errs : list dict) :
  key = "agentId" ∨ key = "errorMessage" →
  Exists (λ error : dict, error !! key = None) errs →
  ∃ key', (key' = "agentId" ∨ key' = "errorMessage")
          ∧ mapM error_message errs = raise ("'" +:+ key' +:+ "'").
Proof.
  intros Hkey. induction 1 as [error errs Hmiss|error errs _ IH];
    rewrite mapM_cons.
  - unfold error_message at 2. unfold getitem.
    destruct Hkey as [-> | ->].
    + exists "agentId". rewrite Hmiss. by split; [left|].
    + destruct (error !! "agentId").
      * exists "errorMessage". rewrite Hmiss. by split; [right|].
      * exists "agentId". by split; [left|].
  - destruct (error_message_outcome error) as [[line ->]|[e He]].
    + destruct IH as (key' & Hk & ->). by exists key'.
    + unfold error_message, getitem in He |- *.
      destruct (error !! "agentId").
      * destruct (error !! "errorMessage"); [done|].
        exists "errorMessage". by split; [right|].
      * exists "agentId". by split; [left|].
Qed.

(** When some entry of ['errors'] lacks ['agentId'] or ['errorMessage'],
    the subscript of line 94 raises, and what [delete_agents] raises is the
    prefix followed by the quoted name of one of the two keys in place of
    the list of agents. *)
Theorem malformed_error_entry (self : ADS) (w : world)
    (agent_ids : list string) (r : response) (errs : list dict) :
  batch_delete_agents w (requests self agent_ids) = Ok r →
  errors r = Some errs →
  Exists (λ error : dict, error !! "agentId" = None
                          ∨ error !! "errorMessage" = None) errs →
  ∃ key, (key = "agentId" ∨ key = "errorMessage")
         ∧ delete_agents self w agent_ids =
             (deleting_agents self agent_ids,
              Raised ("Error deleting agents: " +:+ "'" +:+ key +:+ "'")).
Proof.
  intros Hr He Hmiss.
  assert (∃ key, (key = "agentId" ∨ key = "errorMessage")
                 ∧ mapM error_message errs = raise ("'" +:+ key +:+ "'"))
    as (key & Hkey & Hraise).
  { apply Exists_exists in Hmiss as (error & Hin & [Hm|Hm]).
    - apply (error_messages_missing "agentId"); [by left|].
      apply Exists_exists. eauto.
    - apply (error_messages_missing "errorMessage"); [by right|].
      apply Exists_exists. eauto. }
  exists key. split; [done|].
  unfold delete_agents, delete_agents_body. fold (requests self agent_ids).
  rewrite Hr. cbn -[mapM]. rewrite He. cbn -[mapM].
  destruct errs as [|error errs]; [by apply Exists_nil in Hmiss|].
  by rewrite Hraise.
Qed.

(** ** [main], in every world *)

(** A successful run: the listing returned records that carry both
    identifiers, the agents were deleted without an error and the deletion
    of the configurations was started.  [main] returns, so the process ends
    with status 0, after exactly the three remote calls and the log lines
    of the methods. *)
Theorem clean_run (sys_argv : list string) (w : world) (args : Namespace)
    (t : trace) (recs : list dict) (ids cids : list string) (r : response) :
  starts sys_argv w args →
  list_configurations (ADS_of args) w = (t, Returned (Some recs)) →
  fields "server.agentId" recs ids →
  fields "server.configurationId" recs cids →
  batch_delete_agents w (requests (ADS_of args) ids) = Ok r →
  default [] (errors r) = [] →
  start_batch_delete_configuration_task w "SERVER" cids = Ok tt →
  main sys_argv w =
    (startup args ++ t ++
       (deleting_agents (ADS_of args) ids ++ [Log INFO (DeletedAgents ids)]) ++
       deleting_configurations cids ++
       [Log INFO (DeletedConfigurations cids)],
     Returned tt)
  ∧ exit_status (snd (main sys_argv w)) = 0%Z.
Proof.
  intros Hstart Hlist Hids Hcids Hr He Hc.
  rewrite (main_listed _ _ _ Hstart _ _ Hlist).
  rewrite (deletion_run _ _ _ _ _ Hids Hcids).
  rewrite (delete_agents_clean _ _ _ _ Hr He).
  by rewrite (delete_configurations_clean (ADS_of args) _ _ Hc).
Qed.

(** How far a run gets before line 121. *)
Lemma main_begins (sys_argv : list string) (w : world) :
  main sys_argv w =
    ([Log ERROR (Text "An error occurred: list index out of range")],
     SystemExit 1)
  ∨ (∃ c, main sys_argv w = ([], SystemExit c))
  ∨ main sys_argv w = ([Printed usage_hint], SystemExit 1)
  ∨ (∃ e, main sys_argv w =
            ([NewClient; Log ERROR (Text ("An error occurred: " +:+ e))],
             SystemExit 1))
  ∨ ∃ args, starts sys_argv w args.
Proof.
  destruct sys_argv as [|program [|word words]].
  - by left.
  - right; right; by left.
  - destruct (argparse w) as [args| |] eqn:Hparsed.
    + destruct (new_client w) as [[]|e] eqn:Hc.
      * right; right; right; right. exists args. repeat split; [|done..].
        unfold parse_args. by rewrite Hparsed.
      * right; right; right; left. exists e.
        unfold main, ADS_init, parse_args. rewrite Hparsed, Hc. by run.
    + right; left. exists 0%Z. unfold main, parse_args. by rewrite Hparsed.
    + right; left. exists 2%Z. unfold main, parse_args. by rewrite Hparsed.
Qed.

(** What [main] does once the run has started, by the way the listing
    ended. *)
Lemma main_continues (sys_argv : list string) (w : world) (args : Namespace) :
  starts sys_argv w args →
  let l := list_configurations (ADS_of args) w in
  main sys_argv w =
    match snd l with
    | Returned (Some recs) =>
        (startup args ++ fst l ++
           fst (try_except (deletion (ADS_of args) w recs) report),
         snd (try_except (deletion (ADS_of args) w recs) report))
    | Returned None => (startup args ++ fst l, Returned tt)
    | Raised e =>
        (startup args ++ fst l ++
           [Log ERROR (Text ("An error occurred: " +:+ e))],
         SystemExit 1)
    | SystemExit c => (startup args ++ fst l, SystemExit c)
    end.
Proof.
  intros Hstart l. subst l.
  destruct (list_configurations (ADS_of args) w)
    as [t [[recs|]|e|c]] eqn:Hlist; cbn [fst snd].
  - by apply main_listed.
  - by apply main_nothing.
  - by apply main_list_raised.
  - by apply main_list_exit.
Qed.

(** What lines 123-130 can end with, and the remote calls they make. *)
Lemma deletion_ends (d : ADS) (w : world) (recs : list dict) :
  let run := try_except (deletion d w recs) report in
  (snd run = Returned tt ∨ snd run = SystemExit 1)
  ∧ (remote_calls (fst run) = []
     ∨ ∃ request,
         remote_calls (fst run) = [BatchDeleteAgents request]
         ∨ ∃ ids,
             remote_calls (fst run) =
               [BatchDeleteAgents request;
                StartBatchDeleteConfigurationTask "SERVER" ids]).
Proof.
  intros run. subst run.
  destruct (getitem_cases "server.agentId" recs) as [[ids Hids]|Hno];
    [|rewrite (deletion_no_agent d w recs Hno); split; [by right|by left]].
  destruct (getitem_cases "server.configurationId" recs)
    as [[cids Hcids]|Hno];
    [|rewrite (deletion_no_configuration d w recs ids Hids Hno);
      split; [by right|by left]].
  split.
  - rewrite (deletion_run _ _ _ _ _ Hids Hcids).
    destruct (delete_agents_shape d w ids) as [_ Hna].
    destruct (delete_configurations_shape d w cids) as [_ Hnc].
    destruct (delete_agents d w ids) as [ta [[]|e|c]];
      [|by right|by destruct (Hna c)].
    destruct (delete_configurations d w cids) as [tc [[]|e|c]];
      [by left|by right|by destruct (Hnc c)].
  - right. exists (requests d ids).
    rewrite (deletion_calls _ _ _ _ _ Hids Hcids).
    destruct (snd (delete_agents d w ids)); [right; by exists cids|by left..].
Qed.

(** In every run, whatever the command line, the records and the answers
    of the service, the remote calls are an initial part of the sequence
    listing, deletion of agents, start of the deletion of configurations:
    nothing is listed twice and nothing is deleted before the listing or
    twice. *)
Theorem calls_in_order (sys_argv : list string) (w : world) :
  let calls := remote_calls (fst (main sys_argv w)) in
  calls = []
  ∨ ∃ filters,
      calls = [ListConfigurations "SERVER" filters]
      ∨ ∃ request,
          calls = [ListConfigurations "SERVER" filters;
                   BatchDeleteAgents request]
          ∨ ∃ ids,
              calls = [ListConfigurations "SERVER" filters;
                       BatchDeleteAgents request;
                       StartBatchDeleteConfigurationTask "SERVER" ids].
Proof.
  intros calls. subst calls.
  destruct (main_begins sys_argv w)
    as [->|[[c ->]|[->|[[e ->]|[args Hstart]]]]]; [by left..|].
  right. exists (build_filters (ADS_of args)).
  rewrite (main_continues _ _ _ Hstart).
  pose proof (list_calls (ADS_of args) w) as Hcalls.
  destruct (list_configurations (ADS_of args) w) as [t [[recs|]|e|c]];
    cbn [fst snd] in *; rewrite ?remote_calls_app, Hcalls;
    [|by left..].
  destruct (deletion_ends (ADS_of args) w recs)
    as [_ [-> |(request & [-> |(ids & ->)])]].
  - by left.
  - right. exists request. by left.
  - right. exists request. right. by exists ids.
Qed.

(** No deletion call is made in a run that is neither unattended nor
    confirmed by a line that, lowered, is ['cleanup']. *)
Theorem no_deletion_unconfirmed (sys_argv : list string) (w : world)
    (args : Namespace) :
  parse_args w sys_argv = mret args →
  deletions (fst (main sys_argv w)) ≠ [] →
  args_unattended args = true
  ∨ ∃ line, stdin w = Some line ∧ lower line = "cleanup".
Proof.
  intros Hp Hdel.
  destruct (main_begins sys_argv w)
    as [Hm|[[c Hm]|[Hm|[[e Hm]|[args' Hstart]]]]];
    try (rewrite Hm in Hdel; by destruct Hdel).
  assert (args' = args) as ->.
  { destruct Hstart as [Hp' _]. rewrite Hp in Hp'. by injection Hp'. }
  rewrite (main_continues _ _ _ Hstart) in Hdel.
  pose proof (list_inversion (ADS_of args) w) as Hinv.
  pose proof (list_deletes_nothing (ADS_of args) w) as Hquiet.
  destruct (list_configurations (ADS_of args) w) as [t [[recs|]|e|c]];
    cbn [fst snd] in *.
  - by destruct Hinv as (_ & _ & Hok).
  - rewrite deletions_app, Hquiet in Hdel. by destruct Hdel.
  - rewrite !deletions_app, Hquiet in Hdel. by destruct Hdel.
  - rewrite deletions_app, Hquiet in Hdel. by destruct Hdel.
Qed.

(** ** These theorems on sample runs *)

(** [listing_never_empty] on the listing in three pages, and on an empty
    service. *)
Lemma listing_never_empty_sample :
  (∃ pages, paginate paged "SERVER" [] = (pages, None)
            ∧ [server1; server2] = accumulated pages)
  ∧ snd (list_configurations (ADS_of (set_unattended defaults)) (calm (set_unattended defaults) [] ""))
    = Returned None.
Proof.
  destruct (listing_never_empty (ADS_of (set_unattended defaults)) paged)
    as [Hsome _].
  destruct (Hsome [server1; server2]) as [_ Hpages]; [sample|].
  destruct (listing_never_empty (ADS_of (set_unattended defaults))
              (calm (set_unattended defaults) [] "")) as [_ [_ Hnone]].
  split; [exact Hpages|]. apply Hnone.
  exists [ {| configurations := Some [] |} ]. split; sample.
Defined.

(** [exit_only_on_decline] when the operator types [no]. *)
Lemma exit_only_on_decline_sample :
  ∃ line, stdin (calm defaults [server1] "no") = Some line ∧ lower line ≠ "cleanup".
Proof.
  destruct (exit_only_on_decline (ADS_of defaults) (calm defaults [server1] "no") 0)
    as (_ & _ & Hline); [sample|]. exact Hline.
Defined.

(** [cleanup_in_any_case] on [CleanUp] and on the word behind a blank. *)
Lemma cleanup_in_any_case_sample :
  lower "CleanUp" = "cleanup" ∧ lower " cleanup" ≠ "cleanup".
Proof.
  split.
  - apply (cleanup_in_any_case "CleanUp"). cbv.
    repeat split; (by left) || (by right).
  - apply (cleanup_in_any_case " cleanup"). sample.
Defined.

(** [end_of_input_aborts] with a closed terminal. *)
Lemma end_of_input_sample :
  snd (main [script; "-f"] (closed (set_force defaults) [server1])) = SystemExit 1
  ∧ deletions (fst (main [script; "-f"] (closed (set_force defaults) [server1]))) = [].
Proof.
  destruct (end_of_input_aborts [script; "-f"] (closed (set_force defaults) [server1])
              (set_force defaults)
              [ {| configurations := Some [server1] |} ])
    as [Hmain Hdel]; [sample|sample|sample|sample|sample|].
  split; [by rewrite Hmain|exact Hdel].
Defined.

(** [no_client_no_call] without a region. *)
Lemma no_client_sample :
  main [script; "-u"] (offline (set_unattended defaults) "You must specify a region.") =
    ([NewClient;
      Log ERROR (Text "An error occurred: You must specify a region.")],
     SystemExit 1).
Proof.
  destruct (no_client_no_call [script; "-u"]
              (offline (set_unattended defaults) "You must specify a region.")
              (set_unattended defaults) "You must specify a region.")
    as [Hmain _]; [sample|sample|sample|]. exact Hmain.
Defined.

(** [one_task_call] when the service throttles. *)
Lemma one_task_call_sample :
  snd (delete_configurations (ADS_of defaults)
         (failing defaults [] None None (Some "throttled")) ["c1"]) ≠ Returned tt.
Proof.
  destruct (one_task_call (ADS_of defaults)
              (failing defaults [] None None (Some "throttled")) ["c1"])
    as (_ & [Hok _] & _).
  intros Hret. specialize (Hok Hret). vm_compute in Hok. discriminate Hok.
Defined.

(** [agents_deleted_iff] on a response without ['errors']. *)
Lemma agents_deleted_sample :
  snd (delete_agents (ADS_of defaults) (calm defaults [] "") ["a1"; "a2"]) =
    Returned tt.
Proof.
  destruct (agents_deleted_iff (ADS_of defaults) (calm defaults [] "") ["a1"; "a2"])
    as [[_ Hok] _].
  apply Hok. exists {| errors := None |}. split; [sample|by left].
Defined.

(** [malformed_error_entry] on an entry without ['errorMessage']. *)
Lemma malformed_error_sample :
  ∃ key, (key = "agentId" ∨ key = "errorMessage")
         ∧ delete_agents (ADS_of defaults) (reporting defaults [] [busy; wordless])
             ["a1"] =
             (deleting_agents (ADS_of defaults) ["a1"],
              Raised ("Error deleting agents: " +:+ "'" +:+ key +:+ "'")).
Proof.
  apply (malformed_error_entry (ADS_of defaults)
           (reporting defaults [] [busy; wordless]) ["a1"]
           {| errors := Some [busy; wordless] |} [busy; wordless]);
    [sample|sample|].
  apply Exists_cons_tl, Exists_cons_hd. right. sample.
Defined.

(** [clean_run] on the scenario of two records. *)
Lemma clean_run_sample :
  snd (main [script; "-a"; "web01"; "-u"] (calm (set_unattended (set_app_name "web01" defaults)) [server1; server2] "")) =
    Returned tt
  ∧ exit_status
      (snd (main [script; "-a"; "web01"; "-u"] (calm (set_unattended (set_app_name "web01" defaults)) [server1; server2] "")))
    = 0%Z.
Proof.
  destruct (clean_run [script; "-a"; "web01"; "-u"]
              (calm (set_unattended (set_app_name "web01" defaults)) [server1; server2] "")
              (set_unattended (set_app_name "web01" defaults))
              (fst (list_configurations
                      (ADS_of (set_unattended (set_app_name "web01" defaults)))
                      (calm (set_unattended (set_app_name "web01" defaults)) [server1; server2] "")))
              [server1; server2] ["a1"; "a2"] ["c1"; "c2"]
              {| errors := None |})
    as [Hmain Hexit];
    [sample|sample|sample|sample|sample|sample|sample|].
  split; [by rewrite Hmain|exact Hexit].
Defined.

(** [no_deletion_unconfirmed] on a run that deletes: it was confirmed. *)
Lemma no_deletion_unconfirmed_sample :
  args_unattended (set_force defaults) = true
  ∨ ∃ line, stdin (calm (set_force defaults) [server1] "CLEANUP") = Some line
            ∧ lower line = "cleanup".
Proof.
  apply (no_deletion_unconfirmed [script; "-f"] (calm (set_force defaults) [server1] "CLEANUP")
           (set_force defaults)); sample.
Defined.
